(** * UserManager: a shallow embedding of [UserManager.sh.py]

    The script drives the host's account facilities: [pwd], [subprocess]
    ([useradd], [userdel], [chpasswd]) and [getpass] on POSIX, [win32net] on
    Windows.  Those facilities are not part of the script, so the embedding
    takes them as an interface [OS] over an abstract world [W]; the methods of
    the class [UserManager] are written in a small state-and-exception monad
    that threads the world, the trace of facility calls, the log records and
    the printed lines.

    Python strings are modelled as [string] (byte strings: the development
    covers ASCII text), [Optional[str]] as [option string], [int] as [Z]. *)

From Stdlib Require Import ZArith Ascii String List.
From stdpp Require Import base option list strings gmap sorting pretty.

Local Open Scope string_scope.
Local Open Scope list_scope.
Local Open Scope stdpp_scope.
Local Open Scope Z_scope.

(** ** Python values and exceptions *)

(** The values the script stores in the [user_info] dictionaries. *)
Inductive pyval :=
| PyNone
| PyStr (s : string)
| PyInt (z : Z).

(** A [dict] literal with string keys, in insertion order. *)
Definition pydict := list (string * pyval).

(** [d.get(key)]. *)
Definition dict_get (d : pydict) (key : string) : option pyval :=
  snd <$> List.find (λ kv, String.eqb (fst kv) key) d.

(** The exception classes the script distinguishes.  Each carries [str(e)];
    [CalledProcessError] also carries the captured [stderr].  Every class is
    a subclass of [Exception]; asynchronous interrupts are outside the
    model. *)
Inductive exn :=
| KeyError (msg : string)
| CalledProcessError (msg stderr : string)
| OtherError (msg : string).

Definition exn_str (x : exn) : string :=
  match x with
  | KeyError m => m
  | CalledProcessError m _ => m
  | OtherError m => m
  end.

Definition exn_stderr (x : exn) : string :=
  match x with
  | CalledProcessError _ err => err
  | _ => ""
  end.

(** [except Exception] and [except subprocess.CalledProcessError]. *)
Definition isinstance_Exception (x : exn) : bool := true.

Definition isinstance_CalledProcessError (x : exn) : bool :=
  match x with
  | CalledProcessError _ _ => true
  | _ => false
  end.

Inductive outcome (A : Type) :=
| Ok (a : A)
| Raise (x : exn).
Arguments Ok {A} a.
Arguments Raise {A} x.

Definition is_Ok {A} (o : outcome A) : bool :=
  match o with
  | Ok _ => true
  | Raise _ => false
  end.

(** Truthiness of an [Optional[str]]: [None] and [""] are false. *)
Definition truthy (s : option string) : bool :=
  match s with
  | None => false
  | Some "" => false
  | Some _ => true
  end.

Definition str_truthy (s : string) : bool :=
  match s with
  | "" => false
  | _ => true
  end.

(** [s or d] for an [Optional[str]] [s]. *)
Definition str_or (s : option string) (d : string) : string :=
  match s with
  | Some (String a r) => String a r
  | _ => d
  end.

(** The line feed that ends the [chpasswd] input line. *)
Definition LF : string := String "010"%char "".

(** ** The host facilities *)

(** [pwd.struct_passwd]. *)
Record struct_passwd := {
  pw_name : string;
  pw_passwd : string;
  pw_uid : Z;
  pw_gid : Z;
  pw_gecos : string;
  pw_dir : string;
  pw_shell : string
}.

(** Constants of [win32netcon] (pywin32). *)
Definition USER_PRIV_USER : Z := 1.
Definition UF_SCRIPT : Z := 1.
Definition UF_ACCOUNTDISABLE : Z := 2.
Definition UF_DONT_EXPIRE_PASSWD : Z := 65536.

(** The facility calls the script can issue, as recorded in the trace. *)
Inductive call :=
| pwd_getpwnam_c (name : string)
| pwd_getpwall_c
| subprocess_run_c (cmd : list string)
| Popen_communicate_c (cmd : list string) (input : string)
| NetUserGetInfo_c (username : string) (level : Z)
| NetUserAdd_c (level : Z) (info : pydict)
| NetUserDel_c (username : string)
| NetUserSetInfo_c (username : string) (level : Z) (info : pydict)
| getpass_c (prompt : string).

(** What the facilities do on a world [W].  Look-ups leave the world as it
    is; commands return the next world.  [subprocess_run] is
    [subprocess.run(cmd, check=True, capture_output=True, text=True)]: a
    non-zero exit status is a [CalledProcessError].  [Popen_communicate] is
    [Popen(cmd, ...)] followed by [communicate(input)]: it yields
    [(returncode, stdout, stderr)]. *)
Record OS (W : Type) := {
  pwd_getpwnam : string → W → outcome struct_passwd;
  pwd_getpwall : W → outcome (list struct_passwd);
  subprocess_run : list string → W → outcome unit * W;
  Popen_communicate : list string → string → W → outcome (Z * string * string) * W;
  NetUserGetInfo : string → Z → W → outcome unit;
  NetUserAdd : Z → pydict → W → outcome unit * W;
  NetUserDel : string → W → outcome unit * W;
  NetUserSetInfo : string → Z → pydict → W → outcome unit * W;
  getpass_getpass : string → W → outcome string * W
}.
Arguments pwd_getpwnam {W} _ _ _.
Arguments pwd_getpwall {W} _ _.
Arguments subprocess_run {W} _ _ _.
Arguments Popen_communicate {W} _ _ _ _.
Arguments NetUserGetInfo {W} _ _ _ _.
Arguments NetUserAdd {W} _ _ _ _.
Arguments NetUserDel {W} _ _ _.
Arguments NetUserSetInfo {W} _ _ _ _ _.
Arguments getpass_getpass {W} _ _ _.

(** Calls that change the account store. *)
Definition is_mutation (c : call) : bool :=
  match c with
  | subprocess_run_c _ | Popen_communicate_c _ _
  | NetUserAdd_c _ _ | NetUserDel_c _ | NetUserSetInfo_c _ _ _ => true
  | _ => false
  end.

(** [cmd[:len(words)] == words]. *)
Fixpoint starts_with (words cmd : list string) : bool :=
  match words, cmd with
  | [], _ => true
  | w :: words', c :: cmd' => String.eqb w c && starts_with words' cmd'
  | _ :: _, [] => false
  end.

(** Calls that remove an account entry: the compensating action of an
    account creation. *)
Definition is_removal (c : call) : bool :=
  match c with
  | subprocess_run_c cmd => starts_with ["sudo"; "userdel"] cmd
  | NetUserDel_c _ => true
  | _ => false
  end.

(** The [flags] of a [user_info] dictionary, 0 when it has none. *)
Definition dict_flags (info : pydict) : Z :=
  match dict_get info "flags" with
  | Some (PyInt f) => f
  | _ => 0
  end.

(** Calls that disable the login of an account: locking the password with
    [passwd -l] or [usermod -L], or setting [UF_ACCOUNTDISABLE]. *)
Definition is_lock_step (c : call) : bool :=
  match c with
  | subprocess_run_c cmd =>
      starts_with ["sudo"; "passwd"; "-l"] cmd
      || starts_with ["sudo"; "usermod"; "-L"] cmd
  | NetUserAdd_c _ info | NetUserSetInfo_c _ _ info =>
      negb (Z.land (dict_flags info) UF_ACCOUNTDISABLE =? 0)
  | _ => false
  end.

(** ** Logging and the execution environment *)

Inductive level := INFO | WARNING | ERROR.

(** The environment of a run.  [logs] holds the records passed to
    [logger.info], [logger.warning] and [logger.error]; the handlers that
    [logging.basicConfig] installs copy each record, with its timestamp, to
    the file [user_management.log] and to [sys.stdout].  [stdout] holds the
    lines written by [print] and [print_help] only: the copies of the log
    records on [sys.stdout] are not part of it. *)
Record Env (W : Type) := {
  world : W;
  calls : list call;
  logs : list (level * string);
  stdout : list string
}.
Arguments world {W} _.
Arguments calls {W} _.
Arguments logs {W} _.
Arguments stdout {W} _.

Definition init_env {W} (w : W) : Env W :=
  {| world := w; calls := []; logs := []; stdout := [] |}.

(** ** The monad of the methods *)

Definition M (W A : Type) : Type := Env W → outcome A * Env W.

Definition ret {W A} (a : A) : M W A := λ e, (Ok a, e).

Definition bind {W A B} (m : M W A) (k : A → M W B) : M W B :=
  λ e, match m e with
       | (Ok a, e') => k a e'
       | (Raise x, e') => (Raise x, e')
       end.

Notation "x <- m ;; k" := (bind m (λ x, k))
  (at level 100, m at next level, right associativity).
Notation "m ;;; k" := (bind m (λ _, k))
  (at level 100, right associativity).

(** [try: body except <classes> as e: handler e]. *)
Definition try_except {W A} (body : M W A) (classes : exn → bool)
    (handler : exn → M W A) : M W A :=
  λ e, match body e with
       | (Raise x, e') => if classes x then handler x e' else (Raise x, e')
       | r => r
       end.

Definition add_call {W} (c : call) (e : Env W) : Env W :=
  {| world := world e; calls := calls e ++ [c];
     logs := logs e; stdout := stdout e |}.

Definition set_world {W} (w : W) (e : Env W) : Env W :=
  {| world := w; calls := calls e; logs := logs e; stdout := stdout e |}.

Definition add_log {W} (l : level) (msg : string) (e : Env W) : Env W :=
  {| world := world e; calls := calls e;
     logs := logs e ++ [(l, msg)]; stdout := stdout e |}.

Definition add_line {W} (line : string) (e : Env W) : Env W :=
  {| world := world e; calls := calls e;
     logs := logs e; stdout := stdout e ++ [line] |}.

(** A look-up: recorded in the trace, the world unchanged. *)
Definition lookup_call {W A} (c : call) (f : W → outcome A) : M W A :=
  λ e, (f (world e), add_call c e).

(** A command: recorded in the trace, the world replaced. *)
Definition command_call {W A} (c : call) (f : W → outcome A * W) : M W A :=
  λ e, let '(r, w) := f (world e) in (r, set_world w (add_call c e)).

(** [logger.info], [logger.warning], [logger.error]: the record is kept in
    [logs] (see [Env] for where the handlers write it). *)
Definition logger {W} (l : level) (msg : string) : M W unit :=
  λ e, (Ok tt, add_log l msg e).

Definition print {W} (line : string) : M W unit :=
  λ e, (Ok tt, add_line line e).

(** The calls, log records and lines that a run from [e] to [e'] added. *)
Definition new_calls {W} (e e' : Env W) : list call :=
  drop (length (calls e)) (calls e').

Definition new_logs {W} (e e' : Env W) : list (level * string) :=
  drop (length (logs e)) (logs e').

Definition new_lines {W} (e e' : Env W) : list string :=
  drop (length (stdout e)) (stdout e').

(** ** String helpers of the listing *)

(** [str.lower()] on ASCII text. *)
Definition lower_ascii (a : ascii) : ascii :=
  let n := N_of_ascii a in
  if ((65 <=? n) && (n <=? 90))%N then ascii_of_N (n + 32) else a.

Fixpoint lower (s : string) : string :=
  match s with
  | "" => ""
  | String a r => String (lower_ascii a) (lower r)
  end.

(** [p in s] on strings. *)
Fixpoint contains (p s : string) : bool :=
  String.prefix p s ||
  match s with
  | "" => false
  | String _ r => contains p r
  end.

(** [s * n]. *)
Fixpoint str_repeat (s : string) (n : nat) : string :=
  match n with
  | O => ""
  | S k => s +:+ str_repeat s k
  end.

(** The format specification [:<width]: pad with spaces on the right. *)
Definition ljust (width : nat) (s : string) : string :=
  s +:+ str_repeat " " (width - String.length s).

(** A tuple [(username, uid, description)] of [_list_users_linux]. *)
Definition row : Type := string * Z * string.

(** Python's order on such tuples: the first component that differs
    decides. *)
Definition row_leb (r1 r2 : row) : bool :=
  let '(n1, u1, d1) := r1 in
  let '(n2, u2, d2) := r2 in
  match String.compare n1 n2 with
  | Lt => true
  | Gt => false
  | Eq => match Z.compare u1 u2 with
          | Lt => true
          | Gt => false
          | Eq => String.leb d1 d2
          end
  end.

Definition row_le (r1 r2 : row) : Prop := row_leb r1 r2 = true.

#[global] Instance row_le_dec : RelDecision row_le.
Proof. intros r1 r2. unfold row_le. apply _. Defined.

(** [sorted(users)]. *)
Definition sorted (users : list row) : list row := merge_sort row_le users.

Definition format_row (r : row) : string :=
  let '(username, uid, desc) := r in
  ljust 20 username +:+ " " +:+ ljust 10 (pretty uid) +:+ " " +:+ ljust 30 desc.

(** The body of the [for user in pwd.getpwall()] loop, [users] being the
    list built so far. *)
Fixpoint linux_collect (pattern : option string) (entries : list struct_passwd)
    (users : list row) : list row :=
  match entries with
  | [] => users
  | user :: rest =>
      let username := pw_name user in
      if truthy pattern &&
         negb (contains (lower (str_or pattern "")) (lower username))
      then linux_collect pattern rest users
      else if (pw_uid user >=? 1000) || (pw_uid user =? 0)
      then linux_collect pattern rest
             (users ++ [(username, pw_uid user,
                         str_or (Some (pw_gecos user)) "No description")])
      else linux_collect pattern rest users
  end.

(** ** class UserManager *)

Record UserManager := { system : string }.

Section UserManager.
Context {W : Type} (os : OS W).

(** [user_exists] *)
Definition user_exists (self : UserManager) (username : string) : M W bool :=
  try_except
    (if String.eqb (system self) "win32" then
       try_except
         (lookup_call (NetUserGetInfo_c username 1)
                      (NetUserGetInfo os username 1) ;;;
          ret true)
         isinstance_Exception
         (λ _, ret false)
     else
       lookup_call (pwd_getpwnam_c username) (pwd_getpwnam os username) ;;;
       ret true)
    isinstance_Exception
    (λ _, ret false).

(** [_update_password_linux] *)
Definition _update_password_linux (self : UserManager)
    (username password : string) : M W bool :=
  try_except
    (r <- command_call
            (Popen_communicate_c ["sudo"; "chpasswd"]
                                 (username +:+ ":" +:+ password +:+ LF))
            (Popen_communicate os ["sudo"; "chpasswd"]
                               (username +:+ ":" +:+ password +:+ LF)) ;;
     let '(returncode, _, stderr) := r in
     if returncode =? 0 then
       logger INFO ("Successfully updated password for '" +:+ username +:+ "'") ;;;
       ret true
     else
       logger ERROR ("chpasswd failed: " +:+ stderr) ;;;
       ret false)
    isinstance_Exception
    (λ x, logger ERROR ("Password update failed for '" +:+ username +:+ "': "
                        +:+ exn_str x) ;;;
          ret false).

(** [_update_password_windows] *)
Definition _update_password_windows (self : UserManager)
    (username password : string) : M W bool :=
  try_except
    (let user_info :=
       [("name", PyStr username);
        ("password", PyStr password);
        ("priv", PyInt USER_PRIV_USER)] in
     command_call (NetUserSetInfo_c username 1 user_info)
                  (NetUserSetInfo os username 1 user_info) ;;;
     logger INFO ("Successfully updated password for '" +:+ username +:+ "'") ;;;
     ret true)
    isinstance_Exception
    (λ x, logger ERROR ("Failed to update Windows password for '" +:+ username
                        +:+ "': " +:+ exn_str x) ;;;
          ret false).

(** [update_password].  The prompt branch ends the method early when the
    two entries differ: [None] below stands for that early
    [return False]. *)
Definition update_password (self : UserManager) (username : string)
    (password : option string) : M W bool :=
  found <- user_exists self username ;;
  if negb found then
    logger ERROR ("User '" +:+ username +:+ "' does not exist") ;;;
    ret false
  else
    entered <-
      match password with
      | Some p => ret (Some p)
      | None =>
          p <- command_call
                 (getpass_c ("Enter new password for " +:+ username +:+ ": "))
                 (getpass_getpass os ("Enter new password for " +:+ username +:+ ": ")) ;;
          confirm <- command_call (getpass_c "Confirm password: ")
                                  (getpass_getpass os "Confirm password: ") ;;
          if negb (String.eqb p confirm) then
            logger ERROR "Passwords do not match" ;;;
            ret None
          else ret (Some p)
      end ;;
    match entered with
    | None => ret false
    | Some p =>
        try_except
          (if String.eqb (system self) "win32" then
             _update_password_windows self username p
           else
             _update_password_linux self username p)
          isinstance_Exception
          (λ x, logger ERROR ("Failed to update password for '" +:+ username
                              +:+ "': " +:+ exn_str x) ;;;
                ret false)
    end.

(** The [useradd] command line built by [_create_user_linux]. *)
Definition useradd_cmd (username : string) (shell : string)
    (home_dir : option string) (create_home system_user : bool) : list string :=
  let cmd := ["sudo"; "useradd"] in
  let cmd := if system_user then cmd ++ ["-r"] else cmd in
  let cmd :=
    if truthy home_dir then cmd ++ ["-d"; str_or home_dir ""]
    else if create_home then cmd ++ ["-m"; "-d"; "/home/" +:+ username]
    else cmd ++ ["-M"] in
  let cmd := if str_truthy shell then cmd ++ ["-s"; shell] else cmd in
  cmd ++ [username].

(** [_create_user_linux] *)
Definition _create_user_linux (self : UserManager) (username : string)
    (password : option string) (shell : string) (home_dir : option string)
    (create_home system_user : bool) : M W bool :=
  try_except
    (let cmd := useradd_cmd username shell home_dir create_home system_user in
     command_call (subprocess_run_c cmd) (subprocess_run os cmd) ;;;
     (if truthy password then
        update_password self username password ;;;
        ret tt
      else
        logger WARNING ("User '" +:+ username
                        +:+ "' created without password - account may be disabled")) ;;;
     logger INFO ("Successfully created user '" +:+ username +:+ "'") ;;;
     ret true)
    isinstance_CalledProcessError
    (λ x, logger ERROR ("useradd command failed: " +:+ exn_stderr x) ;;;
          ret false).

(** The [user_info] dictionary of [_create_user_windows]. *)
Definition create_user_info (username : string) (password : option string) : pydict :=
  [("name", PyStr username);
   ("password", PyStr (str_or password ""));
   ("priv", PyInt USER_PRIV_USER);
   ("home_dir", PyNone);
   ("comment", PyStr "Created by Python UserManager");
   ("flags", PyInt (Z.lor UF_SCRIPT UF_DONT_EXPIRE_PASSWD))].

(** [_create_user_windows] *)
Definition _create_user_windows (self : UserManager) (username : string)
    (password : option string) : M W bool :=
  try_except
    (let user_info := create_user_info username password in
     command_call (NetUserAdd_c 1 user_info) (NetUserAdd os 1 user_info) ;;;
     (if negb (truthy password) then
        logger WARNING ("User '" +:+ username +:+ "' created with empty password")
      else
        logger INFO ("Successfully created user '" +:+ username +:+ "' with password")) ;;;
     ret true)
    isinstance_Exception
    (λ x, logger ERROR ("Failed to create Windows user '" +:+ username +:+ "': "
                        +:+ exn_str x) ;;;
          ret false).

(** [create_user] *)
Definition create_user (self : UserManager) (username : string)
    (password : option string) (shell : string) (home_dir : option string)
    (create_home system_user : bool) : M W bool :=
  found <- user_exists self username ;;
  if found then
    logger ERROR ("User '" +:+ username +:+ "' already exists") ;;;
    ret false
  else
    try_except
      (if String.eqb (system self) "win32" then
         _create_user_windows self username password
       else
         _create_user_linux self username password shell home_dir
                            create_home system_user)
      isinstance_Exception
      (λ x, logger ERROR ("Failed to create user '" +:+ username +:+ "': "
                          +:+ exn_str x) ;;;
            ret false).

(** The [userdel] command line built by [_delete_user_linux]. *)
Definition userdel_cmd (username : string) (remove_home : bool) : list string :=
  let cmd := ["sudo"; "userdel"] in
  let cmd := if remove_home then cmd ++ ["-r"] else cmd in
  cmd ++ [username].

(** [_delete_user_linux] *)
Definition _delete_user_linux (self : UserManager) (username : string)
    (remove_home : bool) : M W bool :=
  try_except
    (let cmd := userdel_cmd username remove_home in
     command_call (subprocess_run_c cmd) (subprocess_run os cmd) ;;;
     logger INFO ("Successfully deleted user '" +:+ username +:+ "'") ;;;
     ret true)
    isinstance_CalledProcessError
    (λ x, logger ERROR ("userdel command failed: " +:+ exn_stderr x) ;;;
          ret false).

(** [_delete_user_windows] *)
Definition _delete_user_windows (self : UserManager) (username : string)
    (remove_home : bool) : M W bool :=
  try_except
    (command_call (NetUserDel_c username) (NetUserDel os username) ;;;
     (if remove_home then
        logger WARNING "Home directory removal not implemented for Windows in this script"
      else ret tt) ;;;
     logger INFO ("Successfully deleted user '" +:+ username +:+ "'") ;;;
     ret true)
    isinstance_Exception
    (λ x, logger ERROR ("Failed to delete Windows user '" +:+ username +:+ "': "
                        +:+ exn_str x) ;;;
          ret false).

(** [delete_user] *)
Definition delete_user (self : UserManager) (username : string)
    (remove_home : bool) : M W bool :=
  found <- user_exists self username ;;
  if negb found then
    logger ERROR ("User '" +:+ username +:+ "' does not exist") ;;;
    ret false
  else
    try_except
      (if String.eqb (system self) "win32" then
         _delete_user_windows self username remove_home
       else
         _delete_user_linux self username remove_home)
      isinstance_Exception
      (λ x, logger ERROR ("Failed to delete user '" +:+ username +:+ "': "
                          +:+ exn_str x) ;;;
            ret false).

(** [for ... in sorted(users): print(...)]. *)
Fixpoint print_rows (rows : list row) : M W unit :=
  match rows with
  | [] => ret tt
  | r :: rest => print (format_row r) ;;; print_rows rest
  end.

(** [_list_users_linux] *)
Definition _list_users_linux (self : UserManager) (pattern : option string) : M W unit :=
  try_except
    (entries <- lookup_call pwd_getpwall_c (pwd_getpwall os) ;;
     let users := linux_collect pattern entries [] in
     match users with
     | _ :: _ =>
         print (LF +:+ ljust 20 "Username" +:+ " " +:+ ljust 10 "UID" +:+ " "
                +:+ ljust 30 "Description") ;;;
         print (str_repeat "-" 60) ;;;
         print_rows (sorted users)
     | [] => print "No users found"
     end)
    isinstance_Exception
    (λ x, logger ERROR ("Failed to list Linux users: " +:+ exn_str x)).

(** [_list_users_windows].  The method imports [win32net] only, and the
    module never binds [win32netcon]: with [win32net] imported, evaluating the
    arguments of the first [NetUserEnum] call raises [NameError] before the
    facility is reached, and the method's handler logs it. *)
Definition _list_users_windows (self : UserManager) (pattern : option string) : M W unit :=
  try_except
    (λ e, (Raise (OtherError "name 'win32netcon' is not defined"), e))
    isinstance_Exception
    (λ x, logger ERROR ("Failed to list Windows users: " +:+ exn_str x)).

(** [list_users] *)
Definition list_users (self : UserManager) (pattern : option string) : M W unit :=
  try_except
    (if String.eqb (system self) "win32" then _list_users_windows self pattern
     else _list_users_linux self pattern)
    isinstance_Exception
    (λ x, logger ERROR ("Failed to list users: " +:+ exn_str x)).

End UserManager.

(** ** What the methods expect of the facilities

    The part of the behaviour of [useradd], [chpasswd], [userdel] and of the
    Windows account calls that the existence properties rest on: a creation
    that succeeds leaves an entry that the look-up finds, a credential change
    leaves the entries as they are, a removal that succeeds leaves no entry. *)
Record posix_contract {W : Type} (os : OS W) : Prop := {
  useradd_creates :
    ∀ u sh hd ch sy w w',
      subprocess_run os (useradd_cmd u sh hd ch sy) w = (Ok tt, w') →
      is_Ok (pwd_getpwnam os u w') = true;
  chpasswd_keeps_entries :
    ∀ input w r w' u,
      Popen_communicate os ["sudo"; "chpasswd"] input w = (r, w') →
      is_Ok (pwd_getpwnam os u w') = is_Ok (pwd_getpwnam os u w);
  userdel_removes :
    ∀ u rh w w',
      subprocess_run os (userdel_cmd u rh) w = (Ok tt, w') →
      is_Ok (pwd_getpwnam os u w') = false
}.

Record windows_contract {W : Type} (os : OS W) : Prop := {
  NetUserAdd_creates :
    ∀ u p w w',
      NetUserAdd os 1 (create_user_info u p) w = (Ok tt, w') →
      is_Ok (NetUserGetInfo os u 1 w') = true;
  NetUserDel_removes :
    ∀ u w w',
      NetUserDel os u w = (Ok tt, w') →
      is_Ok (NetUserGetInfo os u 1 w') = false
}.

(** The contract of the platform that [self.system] selects. *)
Definition backend_contract {W : Type} (os : OS W) (self : UserManager) : Prop :=
  if String.eqb (system self) "win32" then windows_contract os
  else posix_contract os.

(** ** A reference host

    An executable account store that implements [OS]: entries keyed by
    username, the set of existing home directories, a minimum password length
    that [chpasswd], [NetUserAdd] and [NetUserSetInfo] enforce, and the
    answers waiting at the terminal for [getpass]. *)
Module Sim.

Record account := {
  acc_uid : Z;
  acc_gecos : string;
  acc_dir : string;
  acc_shell : string;
  (** [None]: no password has been set, the entry is locked. *)
  acc_credential : option string;
  acc_disabled : bool
}.

Record world := {
  accounts : gmap string account;
  homes : gset string;
  next_uid : Z;
  next_system_uid : Z;
  min_password_len : nat;
  keyboard : list string
}.

Definition entry (name : string) (a : account) : struct_passwd :=
  {| pw_name := name; pw_passwd := "x"; pw_uid := acc_uid a;
     pw_gid := acc_uid a; pw_gecos := acc_gecos a; pw_dir := acc_dir a;
     pw_shell := acc_shell a |}.

Definition with_accounts (w : world) (m : gmap string account) : world :=
  {| accounts := m; homes := homes w; next_uid := next_uid w;
     next_system_uid := next_system_uid w;
     min_password_len := min_password_len w; keyboard := keyboard w |}.

Definition set_credential (a : account) (p : string) : account :=
  {| acc_uid := acc_uid a; acc_gecos := acc_gecos a; acc_dir := acc_dir a;
     acc_shell := acc_shell a; acc_credential := Some p;
     acc_disabled := acc_disabled a |}.

(** Whether a look-up in the entries found one. *)
Definition present (o : option account) : bool :=
  match o with
  | Some _ => true
  | None => false
  end.

Definition getpwnam (name : string) (w : world) : outcome struct_passwd :=
  match accounts w !! name with
  | Some a => Ok (entry name a)
  | None => Raise (KeyError ("'getpwnam(): name not found: " +:+ name +:+ "'"))
  end.

Definition getpwall (w : world) : outcome (list struct_passwd) :=
  Ok ((λ na, entry na.1 na.2) <$> map_to_list (accounts w)).

(** The options of [useradd] that the script uses. *)
Inductive token :=
| TSystem | TCreateHome | TNoCreateHome | THome | TShell | TUnknown | TName.

Definition classify (a : string) : token :=
  if String.eqb a "-r" then TSystem
  else if String.eqb a "-m" then TCreateHome
  else if String.eqb a "-M" then TNoCreateHome
  else if String.eqb a "-d" then THome
  else if String.eqb a "-s" then TShell
  else if String.prefix "-" a then TUnknown
  else TName.

Record useradd_opts := {
  o_system : bool;
  o_create_home : bool;
  o_home : option string;
  o_shell : option string;
  o_names : list string
}.

Definition no_opts : useradd_opts :=
  {| o_system := false; o_create_home := false; o_home := None;
     o_shell := None; o_names := [] |}.

Fixpoint parse_useradd (args : list string) (o : useradd_opts) : option useradd_opts :=
  match args with
  | [] => Some o
  | a :: rest =>
      match classify a with
      | TSystem =>
          parse_useradd rest
            {| o_system := true; o_create_home := o_create_home o;
               o_home := o_home o; o_shell := o_shell o; o_names := o_names o |}
      | TCreateHome =>
          parse_useradd rest
            {| o_system := o_system o; o_create_home := true;
               o_home := o_home o; o_shell := o_shell o; o_names := o_names o |}
      | TNoCreateHome =>
          parse_useradd rest
            {| o_system := o_system o; o_create_home := false;
               o_home := o_home o; o_shell := o_shell o; o_names := o_names o |}
      | THome =>
          match rest with
          | v :: rest' =>
              parse_useradd rest'
                {| o_system := o_system o; o_create_home := o_create_home o;
                   o_home := Some v; o_shell := o_shell o; o_names := o_names o |}
          | [] => None
          end
      | TShell =>
          match rest with
          | v :: rest' =>
              parse_useradd rest'
                {| o_system := o_system o; o_create_home := o_create_home o;
                   o_home := o_home o; o_shell := Some v; o_names := o_names o |}
          | [] => None
          end
      | TUnknown => None
      | TName =>
          parse_useradd rest
            {| o_system := o_system o; o_create_home := o_create_home o;
               o_home := o_home o; o_shell := o_shell o;
               o_names := o_names o ++ [a] |}
      end
  end.

Definition useradd (args : list string) (w : world) : outcome unit * world :=
  match parse_useradd args no_opts with
  | Some o =>
      match o_names o with
      | [name] =>
          if String.eqb name "" then
            (Raise (CalledProcessError "useradd returned non-zero exit status 3."
                                       "useradd: invalid user name"), w)
          else
            match accounts w !! name with
            | Some _ =>
                (Raise (CalledProcessError "useradd returned non-zero exit status 9."
                                           "useradd: user already exists"), w)
            | None =>
                let dir := default ("/home/" +:+ name) (o_home o) in
                let uid := if o_system o then next_system_uid w else next_uid w in
                (Ok tt,
                 {| accounts :=
                      <[name := {| acc_uid := uid; acc_gecos := "";
                                   acc_dir := dir;
                                   acc_shell := default "/bin/sh" (o_shell o);
                                   acc_credential := None;
                                   acc_disabled := false |}]> (accounts w);
                    homes := if o_create_home o then {[dir]} ∪ homes w else homes w;
                    next_uid := if o_system o then next_uid w else next_uid w + 1;
                    next_system_uid :=
                      if o_system o then next_system_uid w + 1 else next_system_uid w;
                    min_password_len := min_password_len w;
                    keyboard := keyboard w |})
            end
      | _ =>
          (Raise (CalledProcessError "useradd returned non-zero exit status 2."
                                     "Usage: useradd [options] LOGIN"), w)
      end
  | None =>
      (Raise (CalledProcessError "useradd returned non-zero exit status 2."
                                 "Usage: useradd [options] LOGIN"), w)
  end.

Definition userdel_name (name : string) (remove_home : bool) (w : world)
    : outcome unit * world :=
  match accounts w !! name with
  | Some a =>
      (Ok tt,
       {| accounts := delete name (accounts w);
          homes := if remove_home then homes w ∖ {[acc_dir a]} else homes w;
          next_uid := next_uid w; next_system_uid := next_system_uid w;
          min_password_len := min_password_len w; keyboard := keyboard w |})
  | None =>
      (Raise (CalledProcessError "userdel returned non-zero exit status 6."
                                 "userdel: user does not exist"), w)
  end.

Definition userdel (args : list string) (w : world) : outcome unit * world :=
  match args with
  | [name] =>
      if String.prefix "-" name then
        (Raise (CalledProcessError "userdel returned non-zero exit status 2."
                                   "Usage: userdel [options] LOGIN"), w)
      else userdel_name name false w
  | [flag; name] =>
      if String.eqb flag "-r" && negb (String.prefix "-" name)
      then userdel_name name true w
      else (Raise (CalledProcessError "userdel returned non-zero exit status 2."
                                      "Usage: userdel [options] LOGIN"), w)
  | _ =>
      (Raise (CalledProcessError "userdel returned non-zero exit status 2."
                                 "Usage: userdel [options] LOGIN"), w)
  end.

Definition run (cmd : list string) (w : world) : outcome unit * world :=
  match cmd with
  | "sudo" :: "useradd" :: args => useradd args w
  | "sudo" :: "userdel" :: args => userdel args w
  | _ => (Raise (OtherError "[Errno 2] No such file or directory"), w)
  end.

(** The text before the first line feed. *)
Fixpoint first_line (s : string) : string :=
  match s with
  | "" => ""
  | String a r => if Ascii.eqb a "010" then "" else String a (first_line r)
  end.

(** [name:password] split at the first colon. *)
Fixpoint split_colon (s : string) : option (string * string) :=
  match s with
  | "" => None
  | String a r =>
      if Ascii.eqb a ":" then Some ("", r)
      else match split_colon r with
           | Some (n, p) => Some (String a n, p)
           | None => None
           end
  end.

Definition chpasswd (input : string) (w : world)
    : outcome (Z * string * string) * world :=
  match split_colon (first_line input) with
  | Some (name, p) =>
      match accounts w !! name with
      | Some a =>
          if (String.length p <? min_password_len w)%nat then
            (Ok (1, "", "chpasswd: password rejected by policy"), w)
          else
            (Ok (0, "", ""),
             with_accounts w (<[name := set_credential a p]> (accounts w)))
      | None => (Ok (1, "", "chpasswd: user does not exist"), w)
      end
  | None => (Ok (1, "", "chpasswd: missing new password"), w)
  end.

Definition communicate (cmd : list string) (input : string) (w : world)
    : outcome (Z * string * string) * world :=
  match cmd with
  | ["sudo"; "chpasswd"] => chpasswd input w
  | _ => (Raise (OtherError "[Errno 2] No such file or directory"), w)
  end.

Definition net_get_info (name : string) (lvl : Z) (w : world) : outcome unit :=
  match accounts w !! name with
  | Some _ => Ok tt
  | None => Raise (OtherError "(2221, 'NetUserGetInfo', 'The user name could not be found.')")
  end.

Definition net_add (lvl : Z) (info : pydict) (w : world) : outcome unit * world :=
  match dict_get info "name", dict_get info "password" with
  | Some (PyStr name), Some (PyStr p) =>
      match accounts w !! name with
      | Some _ =>
          (Raise (OtherError "(2224, 'NetUserAdd', 'The account already exists.')"), w)
      | None =>
          if (String.length p <? min_password_len w)%nat then
            (Raise (OtherError "(2245, 'NetUserAdd', 'The password does not meet the password policy requirements.')"), w)
          else
            (Ok tt,
             with_accounts w
               (<[name := {| acc_uid := next_uid w; acc_gecos := "";
                             acc_dir := ""; acc_shell := "";
                             acc_credential := Some p;
                             acc_disabled :=
                               negb (Z.land (dict_flags info) UF_ACCOUNTDISABLE =? 0) |}]>
                  (accounts w)))
      end
  | _, _ => (Raise (OtherError "(87, 'NetUserAdd', 'The parameter is incorrect.')"), w)
  end.

Definition net_del (name : string) (w : world) : outcome unit * world :=
  match accounts w !! name with
  | Some _ => (Ok tt, with_accounts w (delete name (accounts w)))
  | None => (Raise (OtherError "(2221, 'NetUserDel', 'The user name could not be found.')"), w)
  end.

Definition net_set_info (name : string) (lvl : Z) (info : pydict) (w : world)
    : outcome unit * world :=
  match accounts w !! name, dict_get info "password" with
  | Some a, Some (PyStr p) =>
      if (String.length p <? min_password_len w)%nat then
        (Raise (OtherError "(2245, 'NetUserSetInfo', 'The password does not meet the password policy requirements.')"), w)
      else (Ok tt, with_accounts w (<[name := set_credential a p]> (accounts w)))
  | _, _ => (Raise (OtherError "(2221, 'NetUserSetInfo', 'The user name could not be found.')"), w)
  end.

Definition ask (prompt : string) (w : world) : outcome string * world :=
  match keyboard w with
  | answer :: rest =>
      (Ok answer,
       {| accounts := accounts w; homes := homes w; next_uid := next_uid w;
          next_system_uid := next_system_uid w;
          min_password_len := min_password_len w; keyboard := rest |})
  | [] => (Raise (OtherError "EOF when reading a line"), w)
  end.

Definition os : OS world :=
  {| pwd_getpwnam := getpwnam;
     pwd_getpwall := getpwall;
     subprocess_run := run;
     Popen_communicate := communicate;
     NetUserGetInfo := net_get_info;
     NetUserAdd := net_add;
     NetUserDel := net_del;
     NetUserSetInfo := net_set_info;
     getpass_getpass := ask |}.

(** A host with no account, and one with the usual first entries. *)
Definition empty (policy : nat) : world :=
  {| accounts := ∅; homes := ∅; next_uid := 1000; next_system_uid := 100;
     min_password_len := policy; keyboard := [] |}.

Definition system_account (uid : Z) (gecos dir : string) : account :=
  {| acc_uid := uid; acc_gecos := gecos; acc_dir := dir;
     acc_shell := "/usr/sbin/nologin"; acc_credential := None;
     acc_disabled := false |}.

Definition stock (policy : nat) : world :=
  {| accounts :=
       <["root" := system_account 0 "root" "/root"]>
       (<["daemon" := system_account 1 "daemon" "/usr/sbin"]>
       (<["sysadm" := system_account 998 "" "/var/lib/sysadm"]>
       (<["Admin" := {| acc_uid := 1000; acc_gecos := "Administrator";
                        acc_dir := "/home/Admin"; acc_shell := "/bin/bash";
                        acc_credential := Some "correct horse";
                        acc_disabled := false |}]>
       (<["bob" := {| acc_uid := 1001; acc_gecos := "";
                      acc_dir := "/home/bob"; acc_shell := "/bin/bash";
                      acc_credential := Some "battery staple";
                      acc_disabled := false |}]> ∅))));
     homes := {["/root"; "/home/Admin"; "/home/bob"]};
     next_uid := 1002; next_system_uid := 100;
     min_password_len := policy; keyboard := [] |}.

End Sim.

Definition posix : UserManager := {| system := "linux" |}.
Definition windows : UserManager := {| system := "win32" |}.

(** ** Vocabulary of the properties *)

(** The look-up that [user_exists] issues, and its answer on a world. *)
Definition exists_query (self : UserManager) (username : string) : call :=
  if String.eqb (system self) "win32" then NetUserGetInfo_c username 1
  else pwd_getpwnam_c username.

Definition exists_in {W} (os : OS W) (self : UserManager) (username : string)
    (w : W) : bool :=
  if String.eqb (system self) "win32" then is_Ok (NetUserGetInfo os username 1 w)
  else is_Ok (pwd_getpwnam os username w).

(** The line that [_update_password_linux] feeds to [chpasswd]. *)
Definition chpasswd_input (username password : string) : string :=
  username +:+ ":" +:+ password +:+ LF.

(** The [user_info] dictionary of [_update_password_windows]. *)
Definition password_info (username password : string) : pydict :=
  [("name", PyStr username); ("password", PyStr password);
   ("priv", PyInt USER_PRIV_USER)].

(** The warning that a creation without a password logs. *)
Definition no_password_warning (self : UserManager) (username : string) : string :=
  if String.eqb (system self) "win32"
  then "User '" +:+ username +:+ "' created with empty password"
  else "User '" +:+ username
       +:+ "' created without password - account may be disabled".

(** A [chpasswd] run that did not set the credential: a non-zero return code
    or an exception. *)
Definition chpasswd_failed (r : outcome (Z * string * string)) : bool :=
  match r with
  | Ok (returncode, _, _) => negb (returncode =? 0)
  | Raise _ => true
  end.

(** The tuple that the listing appends for an entry. *)
Definition to_row (user : struct_passwd) : row :=
  (pw_name user, pw_uid user, str_or (Some (pw_gecos user)) "No description").

(** The filter of the listing: no pattern, an empty pattern, or a pattern
    that occurs in the username, both in lower case. *)
Definition matches (pattern : option string) (username : string) : bool :=
  negb (truthy pattern) || contains (lower (str_or pattern "")) (lower username).

(** The numeric identifiers that [_list_users_linux] keeps. *)
Definition listed_uid (uid : Z) : bool := (uid >=? 1000) || (uid =? 0).

(** What [_list_users_linux] prints for the rows it collected. *)
Definition render (rows : list row) : list string :=
  match rows with
  | [] => ["No users found"]
  | _ :: _ =>
      (LF +:+ ljust 20 "Username" +:+ " " +:+ ljust 10 "UID" +:+ " "
       +:+ ljust 30 "Description")
      :: str_repeat "-" 60
      :: (format_row <$> rows)
  end.

(** The rows of a listing, in the order printed. *)
Definition listed_rows (pattern : option string) (entries : list struct_passwd)
    : list row :=
  sorted (linux_collect pattern entries []).

Definition username_of (r : row) : string := r.1.1.
Definition uid_of (r : row) : Z := r.1.2.

(** ** The claims that the script does not meet, as they are stated *)

(** Rollback: when the credential step of [create_user] fails after
    [useradd] created the entry, the existence view afterwards is the one
    before the call, unless a removal was attempted. *)
Definition rollback_as_stated {W} (os : OS W) (self : UserManager)
    (username p shell : string) (home_dir : option string)
    (create_home system_user : bool) (e : Env W) : Prop :=
  ∀ w1 r w2,
    exists_in os self username (world e) = false →
    subprocess_run os (useradd_cmd username shell home_dir create_home system_user)
                   (world e) = (Ok tt, w1) →
    Popen_communicate os ["sudo"; "chpasswd"] (chpasswd_input username p) w1
      = (r, w2) →
    chpasswd_failed r = true →
    let e' := (create_user os self username (Some p) shell home_dir create_home
                           system_user e).2 in
    (∀ v, exists_in os self v (world e') = exists_in os self v (world e))
    ∨ (∃ c, c ∈ new_calls e e' ∧ is_removal c = true).

(** Planning-time rejection: [update_password] with an empty credential
    fails and issues no call that changes the account store. *)
Definition empty_credential_rejected {W} (os : OS W) (self : UserManager)
    (username : string) (e : Env W) : Prop :=
  let '(r, e') := update_password os self username (Some "") e in
  r = Ok false ∧ Forall (λ c, is_mutation c = false) (new_calls e e').

(** Locking: [create_user] without a credential ends with a call that
    disables the login. *)
Definition create_ends_with_lock {W} (os : OS W) (self : UserManager)
    (username shell : string) (home_dir : option string)
    (create_home system_user : bool) (e : Env W) : Prop :=
  let e' := (create_user os self username None shell home_dir create_home
                         system_user e).2 in
  ∃ c, last (new_calls e e') = Some c ∧ is_lock_step c = true.

(** Unsupported home removal: on the platform without home removal,
    [delete_user] with [remove_home] reports a failure. *)
Definition home_removal_rejected {W} (os : OS W) (username : string)
    (e : Env W) : Prop :=
  (delete_user os windows username true e).1 = Ok false.

(** Listing: the printed rows are exactly the entries whose username
    matches the pattern, in ascending order of username. *)
Definition lists_exactly_the_matching {W} (os : OS W) (self : UserManager)
    (pattern : option string) (e : Env W) : Prop :=
  ∃ entries rows,
    pwd_getpwall os (world e) = Ok entries
    ∧ new_lines e (_list_users_linux os self pattern e).2 = render rows
    ∧ rows ≡ₚ to_row <$> List.filter (λ user, matches pattern (pw_name user)) entries
    ∧ StronglySorted (λ r1 r2, (username_of r1 ≤ username_of r2)%string) rows.

(** ** The command line entry

    [argparse] is a library: the embedding starts from the namespace that
    [parser.parse_args()] returns, one constructor per sub-command with the
    attributes that sub-command declares, and takes the help text that
    [parser.print_help()] writes as a parameter. *)
Inductive parsed_args :=
| NoCommand
| CreateCommand (username : string) (password : option string) (shell : string)
                (home_dir : option string) (no_create_home system : bool)
| DeleteCommand (username : string) (remove_home : bool)
| PasswordCommand (username : string) (password : option string)
| ListCommand (pattern : option string).

Section Main.
Context {W : Type} (os : OS W).

(** [main], with [manager = UserManager()] passed as [self].  The value is
    the exit status of the process: 0 when [main] returns, 1 for
    [sys.exit(1)].  [SystemExit] is no [Exception], so a [sys.exit(1)] in the
    body passes the handler untouched; [KeyboardInterrupt], an asynchronous
    interrupt, is outside the model. *)
Definition main (self : UserManager) (help : string) (args : parsed_args)
    : M W Z :=
  match args with
  | NoCommand => print help ;;; ret 0
  | _ =>
      try_except
        (match args with
         | CreateCommand username password shell home_dir no_create_home system =>
             success <- create_user os self username password shell home_dir
                                    (negb no_create_home) system ;;
             if negb success then ret 1 else ret 0
         | DeleteCommand username remove_home =>
             success <- delete_user os self username remove_home ;;
             if negb success then ret 1 else ret 0
         | PasswordCommand username password =>
             success <- update_password os self username password ;;
             if negb success then ret 1 else ret 0
         | ListCommand pattern =>
             list_users os self pattern ;;;
             ret 0
         | NoCommand => ret 0
         end)
        isinstance_Exception
        (λ x, logger ERROR ("Unexpected error: " +:+ exn_str x) ;;;
              ret 1)
  end.

End Main.

(** ** Vocabulary of the further properties *)

(** The call that forwards a password to the backend. *)
Definition set_password_call (self : UserManager) (username p : string) : call :=
  if String.eqb (system self) "win32"
  then NetUserSetInfo_c username 1 (password_info username p)
  else Popen_communicate_c ["sudo"; "chpasswd"] (chpasswd_input username p).

(** The two prompts of [update_password]. *)
Definition new_password_prompt (username : string) : string :=
  "Enter new password for " +:+ username +:+ ": ".

Definition confirm_prompt : string := "Confirm password: ".

(** ** A host whose [useradd] answers [--help]

    The reference host, with the behaviour of the [useradd] of shadow-utils
    for a command line whose last argument is [--help]: the usage text is
    printed, nothing is created and the exit status is 0. *)
Module UsageHost.

Definition run (cmd : list string) (w : Sim.world) : outcome unit * Sim.world :=
  match cmd with
  | "sudo" :: "useradd" :: args =>
      if String.eqb (List.last args "") "--help" then (Ok tt, w)
      else Sim.run cmd w
  | _ => Sim.run cmd w
  end.

Definition os : OS Sim.world :=
  {| pwd_getpwnam := Sim.getpwnam;
     pwd_getpwall := Sim.getpwall;
     subprocess_run := run;
     Popen_communicate := Sim.communicate;
     NetUserGetInfo := Sim.net_get_info;
     NetUserAdd := Sim.net_add;
     NetUserDel := Sim.net_del;
     NetUserSetInfo := Sim.net_set_info;
     getpass_getpass := Sim.ask |}.

End UsageHost.

(** * Properties *)

(** ** The embedding on concrete inputs *)

Example useradd_cmd_default :
  useradd_cmd "alice" "/bin/bash" None true false
  = ["sudo"; "useradd"; "-m"; "-d"; "/home/alice"; "-s"; "/bin/bash"; "alice"].
Proof. reflexivity. Qed.

Example useradd_cmd_home_dir_system :
  useradd_cmd "svc" "" (Some "/srv/svc") true true
  = ["sudo"; "useradd"; "-r"; "-d"; "/srv/svc"; "svc"].
Proof. reflexivity. Qed.

Example useradd_cmd_no_home :
  useradd_cmd "alice" "/bin/sh" (Some "") false false
  = ["sudo"; "useradd"; "-M"; "-s"; "/bin/sh"; "alice"].
Proof. reflexivity. Qed.

Example userdel_cmd_remove_home :
  userdel_cmd "alice" true = ["sudo"; "userdel"; "-r"; "alice"].
Proof. reflexivity. Qed.

Example lower_mixed : lower "SysAdm-01" = "sysadm-01".
Proof. reflexivity. Qed.

Example contains_inside : contains "adm" "sysadm" = true.
Proof. reflexivity. Qed.

Example contains_not : contains "adm" "daemon" = false.
Proof. reflexivity. Qed.

Example format_row_root :
  format_row ("root", 0, "root")
  = "root                 0          root                          ".
Proof. vm_compute. reflexivity. Qed.

Example sorted_rows :
  sorted [("bob", 1001, "b"); ("Admin", 1000, "a"); ("bob", 1000, "c")]
  = [("Admin", 1000, "a"); ("bob", 1000, "c"); ("bob", 1001, "b")].
Proof. vm_compute. reflexivity. Qed.

(** A full run: creating [alice] with a password on an empty host. *)
Example create_alice :
  let '(r, e') := create_user Sim.os posix "alice" (Some "s3cr3t") "/bin/bash" None
                              true false (init_env (Sim.empty 0)) in
  r = Ok true
  ∧ calls e' =
      [pwd_getpwnam_c "alice";
       subprocess_run_c
         ["sudo"; "useradd"; "-m"; "-d"; "/home/alice"; "-s"; "/bin/bash"; "alice"];
       pwd_getpwnam_c "alice";
       Popen_communicate_c ["sudo"; "chpasswd"] (chpasswd_input "alice" "s3cr3t")]
  ∧ logs e' =
      [(INFO, "Successfully updated password for 'alice'");
       (INFO, "Successfully created user 'alice'")]
  ∧ Sim.acc_credential <$> (Sim.accounts (world e') !! "alice")
    = Some (Some "s3cr3t").
Proof. vm_compute. repeat split. Qed.

(** A listing with the pattern [ADM] on the stock host. *)
Example list_adm :
  stdout (_list_users_linux Sim.os posix (Some "ADM") (init_env (Sim.stock 0))).2
  = [LF +:+ "Username             UID        Description                   ";
     "------------------------------------------------------------";
     "Admin                1000       Administrator                 "].
Proof. vm_compute. reflexivity. Qed.

(** The Windows listing never reaches the facility. *)
Example list_windows :
  let e' := (list_users Sim.os windows None (init_env (Sim.stock 0))).2 in
  calls e' = [] ∧ world e' = Sim.stock 0
  ∧ logs e' = [(ERROR, "Failed to list Windows users: name 'win32netcon' is not defined")].
Proof. vm_compute. repeat split. Qed.

(** ** The monad and [user_exists] *)

(** Closes a goal [∃ e', run = (r, e') ∧ ...] once the run has been
    evaluated: the environment is the one computed, and the trace is put in
    the form [calls e ++ _]. *)
Ltac finish_run :=
  eexists; (split; [reflexivity|]); simpl; rewrite <- app_assoc; auto.

Section Runs.
Context {W : Type} (os : OS W).

Lemma user_exists_eq (self : UserManager) (username : string) (e : Env W) :
  user_exists os self username e =
  (Ok (exists_in os self username (world e)),
   add_call (exists_query self username) e).
Proof.
  unfold user_exists, exists_in, exists_query, try_except, bind, lookup_call, ret.
  destruct (String.eqb (system self) "win32").
  - destruct (NetUserGetInfo os username 1 (world e)); reflexivity.
  - destruct (pwd_getpwnam os username (world e)); reflexivity.
Qed.

Lemma exists_query_not_mutation (self : UserManager) (username : string) :
  is_mutation (exists_query self username) = false.
Proof. unfold exists_query. destruct (String.eqb _ _); reflexivity. Qed.

Lemma new_calls_app (e e' : Env W) (l : list call) :
  calls e' = calls e ++ l → new_calls e e' = l.
Proof. unfold new_calls. intros ->. apply drop_app_length. Qed.

End Runs.

Section UpdatePassword.
Context {W : Type} (os : OS W).

Lemma update_password_missing self username password (e : Env W) :
  exists_in os self username (world e) = false →
  update_password os self username password e =
  (Ok false,
   add_log ERROR ("User '" +:+ username +:+ "' does not exist")
     (add_call (exists_query self username) e)).
Proof.
  intros Hno. unfold update_password, bind.
  rewrite user_exists_eq, Hno. reflexivity.
Qed.

Lemma update_password_posix_run self username p (e : Env W) r w2 :
  String.eqb (system self) "win32" = false →
  exists_in os self username (world e) = true →
  Popen_communicate os ["sudo"; "chpasswd"] (chpasswd_input username p) (world e)
    = (r, w2) →
  ∃ e', update_password os self username (Some p) e
          = (Ok (negb (chpasswd_failed r)), e')
        ∧ world e' = w2
        ∧ calls e' = calls e ++
            [pwd_getpwnam_c username;
             Popen_communicate_c ["sudo"; "chpasswd"] (chpasswd_input username p)]
        ∧ stdout e' = stdout e.
Proof.
  intros Hsys Hex Hrun.
  unfold update_password, bind. rewrite user_exists_eq, Hex. simpl.
  unfold ret, try_except, exists_query. rewrite Hsys.
  unfold _update_password_linux, try_except, bind, command_call. simpl.
  fold (chpasswd_input username p). rewrite Hrun.
  destruct r as [[[rc out] err]|x]; simpl.
  - destruct (rc =? 0); simpl; finish_run.
  - finish_run.
Qed.

Lemma update_password_windows_run self username p (e : Env W) r w2 :
  String.eqb (system self) "win32" = true →
  exists_in os self username (world e) = true →
  NetUserSetInfo os username 1 (password_info username p) (world e) = (r, w2) →
  ∃ e', update_password os self username (Some p) e = (Ok (is_Ok r), e')
        ∧ world e' = w2
        ∧ calls e' = calls e ++
            [NetUserGetInfo_c username 1;
             NetUserSetInfo_c username 1 (password_info username p)]
        ∧ stdout e' = stdout e.
Proof.
  intros Hsys Hex Hrun.
  unfold update_password, bind. rewrite user_exists_eq, Hex. simpl.
  unfold ret, try_except, exists_query. rewrite Hsys.
  unfold _update_password_windows, try_except, bind, command_call. simpl.
  fold (password_info username p). rewrite Hrun.
  destruct r as [[]|x]; simpl;
    finish_run.
Qed.

End UpdatePassword.

Section CreateUser.
Context {W : Type} (os : OS W).

Lemma update_password_returns self username p (e : Env W) :
  ∃ b e', update_password os self username (Some p) e = (Ok b, e').
Proof.
  destruct (exists_in os self username (world e)) eqn:Hex.
  - destruct (String.eqb (system self) "win32") eqn:Hsys.
    + destruct (NetUserSetInfo os username 1 (password_info username p) (world e))
        as [r w2] eqn:Hrun.
      destruct (update_password_windows_run os self username p e r w2 Hsys Hex Hrun)
        as (e' & -> & _). eauto.
    + destruct (Popen_communicate os ["sudo"; "chpasswd"]
                  (chpasswd_input username p) (world e)) as [r w2] eqn:Hrun.
      destruct (update_password_posix_run os self username p e r w2 Hsys Hex Hrun)
        as (e' & -> & _). eauto.
  - rewrite update_password_missing by done. eauto.
Qed.

Lemma create_user_found self username password shell home_dir create_home
    system_user (e : Env W) :
  exists_in os self username (world e) = true →
  create_user os self username password shell home_dir create_home system_user e =
  (Ok false,
   add_log ERROR ("User '" +:+ username +:+ "' already exists")
     (add_call (exists_query self username) e)).
Proof.
  intros Hex. unfold create_user, bind. rewrite user_exists_eq, Hex. reflexivity.
Qed.

Lemma create_user_posix_useradd_fails self username password shell home_dir
    create_home system_user (e : Env W) x w1 :
  String.eqb (system self) "win32" = false →
  exists_in os self username (world e) = false →
  subprocess_run os (useradd_cmd username shell home_dir create_home system_user)
                 (world e) = (Raise x, w1) →
  ∃ e', create_user os self username password shell home_dir create_home
                    system_user e = (Ok false, e')
        ∧ world e' = w1
        ∧ calls e' = calls e ++
            [pwd_getpwnam_c username;
             subprocess_run_c
               (useradd_cmd username shell home_dir create_home system_user)].
Proof.
  intros Hsys Hex Hrun. unfold create_user, bind.
  rewrite user_exists_eq, Hex. unfold exists_query, try_except. rewrite Hsys.
  unfold _create_user_linux, try_except, bind, command_call. simpl.
  rewrite Hrun. simpl.
  destruct x; simpl; finish_run.
Qed.

Lemma create_user_posix_no_password self username password shell home_dir
    create_home system_user (e : Env W) w1 :
  String.eqb (system self) "win32" = false →
  exists_in os self username (world e) = false →
  truthy password = false →
  subprocess_run os (useradd_cmd username shell home_dir create_home system_user)
                 (world e) = (Ok tt, w1) →
  create_user os self username password shell home_dir create_home system_user e =
  (Ok true,
   add_log INFO ("Successfully created user '" +:+ username +:+ "'")
     (add_log WARNING ("User '" +:+ username
                       +:+ "' created without password - account may be disabled")
        (set_world w1
           (add_call (subprocess_run_c
                        (useradd_cmd username shell home_dir create_home system_user))
              (add_call (pwd_getpwnam_c username) e))))).
Proof.
  intros Hsys Hex Hpw Hrun. unfold create_user, bind.
  rewrite user_exists_eq, Hex. unfold exists_query, try_except. rewrite Hsys.
  unfold _create_user_linux, try_except, bind, command_call. simpl.
  rewrite Hrun, Hpw. reflexivity.
Qed.

Lemma create_user_posix_password self username p shell home_dir
    create_home system_user (e : Env W) w1 b e3 :
  String.eqb (system self) "win32" = false →
  exists_in os self username (world e) = false →
  truthy (Some p) = true →
  subprocess_run os (useradd_cmd username shell home_dir create_home system_user)
                 (world e) = (Ok tt, w1) →
  update_password os self username (Some p)
    (set_world w1
       (add_call (subprocess_run_c
                    (useradd_cmd username shell home_dir create_home system_user))
          (add_call (pwd_getpwnam_c username) e))) = (Ok b, e3) →
  create_user os self username (Some p) shell home_dir create_home system_user e =
  (Ok true,
   add_log INFO ("Successfully created user '" +:+ username +:+ "'") e3).
Proof.
  intros Hsys Hex Hpw Hrun Hup.
  destruct p as [|a p]; [discriminate Hpw|].
  unfold create_user, bind.
  rewrite user_exists_eq, Hex. unfold exists_query, try_except. rewrite Hsys.
  unfold _create_user_linux, try_except, bind, command_call. simpl.
  rewrite Hrun. simpl. rewrite Hup. reflexivity.
Qed.

Lemma create_user_windows_run self username password shell home_dir
    create_home system_user (e : Env W) r w1 :
  String.eqb (system self) "win32" = true →
  exists_in os self username (world e) = false →
  NetUserAdd os 1 (create_user_info username password) (world e) = (r, w1) →
  ∃ e', create_user os self username password shell home_dir create_home
                    system_user e = (Ok (is_Ok r), e')
        ∧ world e' = w1
        ∧ calls e' = calls e ++
            [NetUserGetInfo_c username 1;
             NetUserAdd_c 1 (create_user_info username password)].
Proof.
  intros Hsys Hex Hrun. unfold create_user, bind.
  rewrite user_exists_eq, Hex. unfold exists_query, try_except. rewrite Hsys.
  unfold _create_user_windows, try_except, bind, command_call. simpl.
  rewrite Hrun.
  destruct r as [[]|x]; simpl.
  - destruct (truthy password); simpl; finish_run.
  - finish_run.
Qed.

Lemma create_user_windows_no_password self username shell home_dir
    create_home system_user (e : Env W) w1 :
  String.eqb (system self) "win32" = true →
  exists_in os self username (world e) = false →
  NetUserAdd os 1 (create_user_info username None) (world e) = (Ok tt, w1) →
  create_user os self username None shell home_dir create_home system_user e =
  (Ok true,
   add_log WARNING ("User '" +:+ username +:+ "' created with empty password")
     (set_world w1
        (add_call (NetUserAdd_c 1 (create_user_info username None))
           (add_call (NetUserGetInfo_c username 1) e)))).
Proof.
  intros Hsys Hex Hrun. unfold create_user, bind.
  rewrite user_exists_eq, Hex. unfold exists_query, try_except. rewrite Hsys.
  unfold _create_user_windows, try_except, bind, command_call. simpl.
  rewrite Hrun. reflexivity.
Qed.

(** Once [useradd] has succeeded, [_create_user_linux] returns [True]
    whatever [update_password] returns. *)
Lemma create_user_posix_ignores_update_password self username p shell home_dir
    create_home system_user (e : Env W) w1 :
  String.eqb (system self) "win32" = false →
  exists_in os self username (world e) = false →
  truthy (Some p) = true →
  subprocess_run os (useradd_cmd username shell home_dir create_home system_user)
                 (world e) = (Ok tt, w1) →
  (create_user os self username (Some p) shell home_dir create_home system_user e).1
  = Ok true.
Proof.
  intros Hsys Hex Hpw Hrun.
  destruct (update_password_returns self username p
              (set_world w1
                 (add_call (subprocess_run_c
                    (useradd_cmd username shell home_dir create_home system_user))
                    (add_call (pwd_getpwnam_c username) e)))) as (b & e3 & Hup).
  by erewrite create_user_posix_password by eauto.
Qed.

End CreateUser.

Section DeleteUser.
Context {W : Type} (os : OS W).

Lemma delete_user_missing self username remove_home (e : Env W) :
  exists_in os self username (world e) = false →
  delete_user os self username remove_home e =
  (Ok false,
   add_log ERROR ("User '" +:+ username +:+ "' does not exist")
     (add_call (exists_query self username) e)).
Proof.
  intros Hex. unfold delete_user, bind. rewrite user_exists_eq, Hex. reflexivity.
Qed.

Lemma delete_user_posix_run self username remove_home (e : Env W) r w1 :
  String.eqb (system self) "win32" = false →
  exists_in os self username (world e) = true →
  subprocess_run os (userdel_cmd username remove_home) (world e) = (r, w1) →
  ∃ e', delete_user os self username remove_home e = (Ok (is_Ok r), e')
        ∧ world e' = w1
        ∧ calls e' = calls e ++
            [pwd_getpwnam_c username;
             subprocess_run_c (userdel_cmd username remove_home)].
Proof.
  intros Hsys Hex Hrun. unfold delete_user, bind.
  rewrite user_exists_eq, Hex. unfold exists_query, try_except. rewrite Hsys.
  unfold _delete_user_linux, try_except, bind, command_call. simpl.
  rewrite Hrun.
  destruct r as [[]|x]; simpl; [|destruct x; simpl];
    finish_run.
Qed.

Lemma delete_user_windows_run self username remove_home (e : Env W) r w1 :
  String.eqb (system self) "win32" = true →
  exists_in os self username (world e) = true →
  NetUserDel os username (world e) = (r, w1) →
  ∃ e', delete_user os self username remove_home e = (Ok (is_Ok r), e')
        ∧ world e' = w1
        ∧ calls e' = calls e ++ [NetUserGetInfo_c username 1; NetUserDel_c username].
Proof.
  intros Hsys Hex Hrun. unfold delete_user, bind.
  rewrite user_exists_eq, Hex. unfold exists_query, try_except. rewrite Hsys.
  unfold _delete_user_windows, try_except, bind, command_call. simpl.
  rewrite Hrun.
  destruct r as [[]|x]; simpl; [destruct remove_home; simpl|];
    finish_run.
Qed.

End DeleteUser.

(** ** Existence after a successful creation or removal *)

Section Existence.
Context {W : Type} (os : OS W) (self : UserManager).
Context (contract : backend_contract os self).

Lemma created_user_exists username password shell home_dir create_home
    system_user (e e1 : Env W) :
  create_user os self username password shell home_dir create_home system_user e
    = (Ok true, e1) →
  exists_in os self username (world e1) = true.
Proof.
  intros Hrun.
  destruct (exists_in os self username (world e)) eqn:Hex.
  { rewrite create_user_found in Hrun by done. discriminate. }
  unfold backend_contract in contract.
  destruct (String.eqb (system self) "win32") eqn:Hsys.
  - destruct (NetUserAdd os 1 (create_user_info username password) (world e))
      as [r w1] eqn:Hadd.
    destruct (create_user_windows_run os self username password shell home_dir
                create_home system_user e r w1 Hsys Hex Hadd) as (e' & Heq & Hw & _).
    rewrite Heq in Hrun. destruct r as [[]|x]; [|discriminate].
    injection Hrun as <-. unfold exists_in. rewrite Hsys, Hw.
    eapply NetUserAdd_creates; eauto.
  - destruct (subprocess_run os
                (useradd_cmd username shell home_dir create_home system_user)
                (world e)) as [r w1] eqn:Hadd.
    destruct r as [[]|x].
    2:{ destruct (create_user_posix_useradd_fails os self username password shell
                    home_dir create_home system_user e x w1 Hsys Hex Hadd)
          as (e' & Heq & _).
        rewrite Heq in Hrun. discriminate. }
    assert (Hw1 : exists_in os self username w1 = true).
    { unfold exists_in. rewrite Hsys. eapply useradd_creates; eauto. }
    destruct (truthy password) eqn:Hpw.
    + destruct password as [p|]; [|discriminate].
      set (e2 := set_world w1
                   (add_call (subprocess_run_c
                      (useradd_cmd username shell home_dir create_home system_user))
                      (add_call (pwd_getpwnam_c username) e))).
      destruct (Popen_communicate os ["sudo"; "chpasswd"]
                  (chpasswd_input username p) (world e2)) as [r w2] eqn:Hch.
      destruct (update_password_posix_run os self username p e2 r w2 Hsys Hw1 Hch)
        as (e3 & Hup & Hw & _).
      erewrite create_user_posix_password in Hrun by eauto.
      injection Hrun as <-. simpl. rewrite Hw.
      unfold exists_in in *. rewrite Hsys in *.
      erewrite chpasswd_keeps_entries; eauto.
    + rewrite (create_user_posix_no_password os self username password shell home_dir
                 create_home system_user e w1) in Hrun by done.
      injection Hrun as <-. exact Hw1.
Qed.

Lemma deleted_user_is_gone username remove_home (e e1 : Env W) :
  delete_user os self username remove_home e = (Ok true, e1) →
  exists_in os self username (world e1) = false.
Proof.
  intros Hrun.
  destruct (exists_in os self username (world e)) eqn:Hex.
  2:{ rewrite delete_user_missing in Hrun by done. discriminate. }
  unfold backend_contract in contract.
  destruct (String.eqb (system self) "win32") eqn:Hsys.
  - destruct (NetUserDel os username (world e)) as [r w1] eqn:Hdel.
    destruct (delete_user_windows_run os self username remove_home e r w1
                Hsys Hex Hdel) as (e' & Heq & Hw & _).
    rewrite Heq in Hrun. destruct r as [[]|x]; [|discriminate].
    injection Hrun as <-. unfold exists_in. rewrite Hsys, Hw.
    eapply NetUserDel_removes; eauto.
  - destruct (subprocess_run os (userdel_cmd username remove_home) (world e))
      as [r w1] eqn:Hdel.
    destruct (delete_user_posix_run os self username remove_home e r w1
                Hsys Hex Hdel) as (e' & Heq & Hw & _).
    rewrite Heq in Hrun. destruct r as [[]|x]; [|discriminate].
    injection Hrun as <-. unfold exists_in. rewrite Hsys, Hw.
    eapply userdel_removes; eauto.
Qed.

End Existence.

(** ** The reference host meets the contract *)

Lemma sim_parse_useradd_cmd username shell home_dir create_home system_user o :
  Sim.parse_useradd
    (drop 2 (useradd_cmd username shell home_dir create_home system_user))
    Sim.no_opts = Some o →
  Sim.o_names o = [username] ∨ Sim.o_names o = [].
Proof.
  unfold useradd_cmd.
  destruct system_user, home_dir as [[|a r]|], create_home, shell as [|b s];
    cbn -[Sim.classify String.append];
    repeat match goal with
    | |- context [Sim.classify (String ?a (String ?b EmptyString))] =>
        let t := eval vm_compute in (Sim.classify (String a (String b EmptyString))) in
        change (Sim.classify (String a (String b EmptyString))) with t;
        cbn -[Sim.classify String.append]
    end;
    destruct (Sim.classify username); cbn; intros H; simplify_eq; cbn; auto.
Qed.

Lemma sim_is_Ok_getpwnam name (w : Sim.world) :
  is_Ok (Sim.getpwnam name w) = Sim.present (Sim.accounts w !! name).
Proof. unfold Sim.getpwnam. destruct (Sim.accounts w !! name); reflexivity. Qed.

Lemma sim_is_Ok_net_get_info name lvl (w : Sim.world) :
  is_Ok (Sim.net_get_info name lvl w) = Sim.present (Sim.accounts w !! name).
Proof. unfold Sim.net_get_info. destruct (Sim.accounts w !! name); reflexivity. Qed.

Lemma sim_posix_contract : posix_contract Sim.os.
Proof.
  split.
  - intros u sh hd ch sy w w' Hrun. simpl in *.
    rewrite sim_is_Ok_getpwnam.
    assert (Hcmd : useradd_cmd u sh hd ch sy
                   = "sudo" :: "useradd" :: drop 2 (useradd_cmd u sh hd ch sy)).
    { unfold useradd_cmd.
      destruct sy, (truthy hd), ch, (str_truthy sh); reflexivity. }
    rewrite Hcmd in Hrun. cbn [Sim.run] in Hrun.
    change (Sim.useradd (drop 2 (useradd_cmd u sh hd ch sy)) w = (Ok (), w')) in Hrun.
    unfold Sim.useradd in Hrun.
    destruct (Sim.parse_useradd _ _) as [o|] eqn:Hparse; [|discriminate].
    apply sim_parse_useradd_cmd in Hparse as [Hn|Hn]; rewrite Hn in Hrun;
      [|discriminate].
    destruct (String.eqb u ""); [discriminate|].
    destruct (Sim.accounts w !! u); [discriminate|].
    injection Hrun as <-. simpl. by rewrite lookup_insert_eq.
  - intros input w r w' u Hrun. simpl in *.
    rewrite !sim_is_Ok_getpwnam. unfold Sim.chpasswd in Hrun.
    destruct (Sim.split_colon _) as [[name p]|]; [|by injection Hrun as _ <-].
    destruct (Sim.accounts w !! name) as [a|] eqn:Hname;
      [|by injection Hrun as _ <-].
    destruct (_ <? _)%nat; injection Hrun as _ <-; [done|]. simpl.
    destruct (decide (name = u)) as [->|Hne].
    + by rewrite lookup_insert_eq, Hname.
    + by rewrite lookup_insert_ne.
  - intros u rh w w' Hrun. simpl in *.
    rewrite sim_is_Ok_getpwnam.
    assert (Hdel : ∃ b, Sim.userdel_name u b w = (Ok (), w')).
    { unfold userdel_cmd in Hrun. destruct rh; cbn in Hrun.
      - destruct (String.prefix "-" u); simpl in Hrun; [discriminate|eauto].
      - destruct (String.prefix "-" u); simpl in Hrun; [discriminate|eauto]. }
    destruct Hdel as [b Hdel]. unfold Sim.userdel_name in Hdel.
    destruct (Sim.accounts w !! u); [|discriminate].
    injection Hdel as <-. simpl. by rewrite lookup_delete_eq.
Qed.

Lemma sim_windows_contract : windows_contract Sim.os.
Proof.
  split.
  - intros u p w w' Hrun. simpl in *.
    rewrite sim_is_Ok_net_get_info.
    unfold Sim.net_add in Hrun. cbn in Hrun.
    destruct (Sim.accounts w !! u); [discriminate|].
    match type of Hrun with (if ?c then _ else _) = _ => destruct c end;
      [discriminate|].
    injection Hrun as <-. simpl. by rewrite lookup_insert_eq.
  - intros u w w' Hrun. simpl in *.
    rewrite sim_is_Ok_net_get_info.
    unfold Sim.net_del in Hrun.
    destruct (Sim.accounts w !! u); [|discriminate].
    injection Hrun as <-. simpl. by rewrite lookup_delete_eq.
Qed.

Lemma sim_contract (self : UserManager) : backend_contract Sim.os self.
Proof.
  unfold backend_contract. destruct (String.eqb _ _).
  - apply sim_windows_contract.
  - apply sim_posix_contract.
Qed.

(** ** The listing *)

Lemma prefix_spec (p s : string) :
  String.prefix p s = true ↔ ∃ t, s = p +:+ t.
Proof.
  revert s. induction p as [|a p IH]; intros s.
  - destruct s; simpl; split; eauto.
  - destruct s as [|b s]; simpl.
    + split; [discriminate|]. intros [t Ht]. discriminate.
    + destruct (ascii_dec a b) as [->|Hne].
      * rewrite IH. split; intros [t Ht]; exists t.
        -- by rewrite Ht.
        -- by injection Ht.
      * split; [discriminate|]. intros [t Ht]. injection Ht as ? ?. congruence.
Qed.

(** [contains p s] holds exactly when [p] occurs in [s]. *)
Lemma contains_spec (p s : string) :
  contains p s = true ↔ ∃ t1 t2, s = t1 +:+ p +:+ t2.
Proof.
  induction s as [|b s IH].
  - cbn [contains]. rewrite orb_false_r, prefix_spec. split.
    + intros [t Ht]. by exists "", t.
    + intros (t1 & t2 & Ht). destruct t1; [by exists t2|discriminate].
  - cbn [contains]. rewrite orb_true_iff, IH, prefix_spec. split.
    + intros [[t Ht]|(t1 & t2 & Ht)].
      * by exists "", t.
      * exists (String b t1), t2. by rewrite Ht.
    + intros (t1 & t2 & Ht). destruct t1 as [|c t1].
      * left. by exists t2.
      * right. exists t1, t2. by injection Ht.
Qed.

Lemma linux_collect_filter pattern entries users :
  linux_collect pattern entries users =
  users ++ (to_row <$>
            List.filter (λ user, matches pattern (pw_name user)
                                 && listed_uid (pw_uid user)) entries).
Proof.
  revert users. induction entries as [|user rest IH]; intros users.
  - simpl. by rewrite app_nil_r.
  - cbn [linux_collect List.filter].
    replace (truthy pattern
             && negb (contains (lower (str_or pattern "")) (lower (pw_name user))))
      with (negb (matches pattern (pw_name user)))
      by (unfold matches; destruct (truthy pattern), (contains _ _); done).
    fold (listed_uid (pw_uid user)).
    destruct (matches pattern (pw_name user)), (listed_uid (pw_uid user)); simpl;
      rewrite IH; [|done..].
    by rewrite <- app_assoc.
Qed.

Lemma listed_uid_spec uid : listed_uid uid = true ↔ 1000 ≤ uid ∨ uid = 0.
Proof. unfold listed_uid. rewrite orb_true_iff. lia. Qed.

Lemma row_le_spec (r1 r2 : row) :
  row_le r1 r2 ↔
  (r1.1.1 ≤ r2.1.1)%string ∧
  (r1.1.1 = r2.1.1 → r1.1.2 ≤ r2.1.2 ∧ (r1.1.2 = r2.1.2 → (r1.2 ≤ r2.2)%string)).
Proof.
  destruct r1 as [[n1 u1] d1], r2 as [[n2 u2] d2]. unfold row_le, row_leb; simpl.
  unfold String.le, String.leb.
  destruct (String.compare n1 n2) eqn:Hn.
  - apply String.compare_eq_iff in Hn as ->.
    destruct (Z.compare u1 u2) eqn:Hu.
    + apply Z.compare_eq in Hu as ->. split.
      * intros H. split; [done|]. intros _. split; [lia|]. intros _.
        by apply Is_true_true.
      * intros [_ H]. destruct (H eq_refl) as [_ H']. apply Is_true_true. by apply H'.
    + pose proof (proj1 (Z.compare_lt_iff _ _) Hu) as Hlt. split; [|done].
      intros _. split; [done|]. intros _. split; [lia|]. intros ?. lia.
    + pose proof (proj1 (Z.compare_gt_iff _ _) Hu) as Hgt. split; [discriminate|].
      intros [_ H]. destruct (H eq_refl). lia.
  - split; [|done]. intros _. split; [done|]. intros ->.
    pose proof (String.compare_antisym n2 n2) as Ha. rewrite Hn in Ha.
    discriminate.
  - split; [discriminate|]. intros [H _]. done.
Qed.

#[global] Instance row_le_total : Total row_le.
Proof.
  intros r1 r2. rewrite !row_le_spec.
  destruct (total String.le r1.1.1 r2.1.1) as [Hn|Hn].
  - destruct (decide (r1.1.1 = r2.1.1)) as [He|Hne].
    + destruct (Z.lt_trichotomy r1.1.2 r2.1.2) as [Hu|[Hu|Hu]].
      * left. split; [done|]. intros _. split; lia.
      * destruct (total String.le r1.2 r2.2).
        -- left. split; [done|]. intros _. split; [lia|done].
        -- right. rewrite He. split; [done|]. intros _. split; [lia|done].
      * right. rewrite He. split; [done|]. intros _. split; lia.
    + left. split; [done|]. done.
  - destruct (decide (r2.1.1 = r1.1.1)) as [He|Hne].
    + destruct (Z.lt_trichotomy r2.1.2 r1.1.2) as [Hu|[Hu|Hu]].
      * right. split; [done|]. intros _. split; lia.
      * destruct (total String.le r2.2 r1.2).
        -- right. split; [done|]. intros _. split; [lia|done].
        -- left. rewrite He. split; [done|]. intros _. split; [lia|done].
      * left. rewrite He. split; [done|]. intros _. split; lia.
    + right. split; [done|]. done.
Qed.

#[global] Instance row_le_trans : Transitive row_le.
Proof.
  intros r1 r2 r3. rewrite !row_le_spec. intros [Hn12 H12] [Hn23 H23]. split.
  - by etrans.
  - intros He.
    assert (r1.1.1 = r2.1.1) as He12.
    { apply (anti_symm String.le); [done|]. by rewrite He. }
    assert (r2.1.1 = r3.1.1) as He23 by congruence.
    destruct (H12 He12) as [Hu12 Hd12], (H23 He23) as [Hu23 Hd23].
    split; [lia|]. intros Hu.
    assert (r1.1.2 = r2.1.2) as Hu1 by lia.
    assert (r2.1.2 = r3.1.2) as Hu2 by lia.
    etrans; [by apply Hd12|by apply Hd23].
Qed.

#[global] Instance row_le_antisym : AntiSymm (=) row_le.
Proof.
  intros [[n1 u1] d1] [[n2 u2] d2]. rewrite !row_le_spec. simpl.
  intros [Hn12 H12] [Hn21 H21].
  assert (n1 = n2) as -> by by apply (anti_symm String.le).
  destruct (H12 eq_refl) as [Hu12 Hd12], (H21 eq_refl) as [Hu21 Hd21].
  assert (u1 = u2) as -> by lia.
  assert (d1 = d2) as -> by (apply (anti_symm String.le); eauto).
  done.
Qed.

(** [sorted] is the one ordered arrangement of its argument, whatever the
    sorting algorithm. *)
Lemma sorted_unique (users rows : list row) :
  rows ≡ₚ users → Sorted row_le rows → rows = sorted users.
Proof.
  intros Hp Hs. apply (Sorted_unique row_le); [done| |].
  - apply Sorted_merge_sort, _.
  - unfold sorted. by rewrite merge_sort_Permutation.
Qed.

Lemma sorted_by_username (users : list row) :
  StronglySorted (λ r1 r2, (username_of r1 ≤ username_of r2)%string) (sorted users).
Proof.
  assert (StronglySorted row_le (sorted users)) as H
    by (apply StronglySorted_merge_sort; apply _).
  induction H as [|r l Hl IH Hall]; constructor; [done|].
  eapply Forall_impl; [exact Hall|]. intros r' Hr. by apply row_le_spec in Hr as [? _].
Qed.

Lemma elem_of_listed_rows pattern entries (r : row) :
  r ∈ listed_rows pattern entries ↔
  ∃ user, user ∈ entries ∧ r = to_row user
          ∧ matches pattern (pw_name user) = true
          ∧ (1000 ≤ pw_uid user ∨ pw_uid user = 0).
Proof.
  unfold listed_rows, sorted. rewrite merge_sort_Permutation, linux_collect_filter.
  simpl. rewrite list_elem_of_fmap. split.
  - intros (user & -> & Hin). apply list_elem_of_In, filter_In in Hin as [Hin Hf].
    apply andb_true_iff in Hf as [Hm Hu]. apply listed_uid_spec in Hu.
    exists user. by rewrite list_elem_of_In.
  - intros (user & Hin & -> & Hm & Hu). exists user. split; [done|].
    apply list_elem_of_In, filter_In. split; [by apply list_elem_of_In|].
    apply andb_true_iff. by rewrite listed_uid_spec.
Qed.

Section Listing.
Context {W : Type} (os : OS W).

Lemma print_rows_eq (rows : list row) (e : Env W) :
  print_rows rows e =
  (Ok tt, {| world := world e; calls := calls e; logs := logs e;
             stdout := stdout e ++ (format_row <$> rows) |}).
Proof.
  revert e. induction rows as [|r rows IH]; intros e; simpl.
  - unfold ret. rewrite app_nil_r. by destruct e.
  - unfold bind, print. rewrite IH. simpl. by rewrite <- app_assoc.
Qed.

Lemma _list_users_linux_eq self pattern (e : Env W) entries :
  pwd_getpwall os (world e) = Ok entries →
  _list_users_linux os self pattern e =
  (Ok tt, {| world := world e; calls := calls e ++ [pwd_getpwall_c];
             logs := logs e;
             stdout := stdout e ++ render (listed_rows pattern entries) |}).
Proof.
  intros Hall. unfold _list_users_linux, try_except, bind, lookup_call.
  rewrite Hall. unfold listed_rows.
  destruct (linux_collect pattern entries []) as [|r rows] eqn:Hrows.
  - reflexivity.
  - unfold print at 1 2. simpl. rewrite print_rows_eq. simpl.
    assert (sorted (r :: rows) ≠ []) as Hne.
    { intros Hnil. assert (r :: rows ≡ₚ []) as Hp.
      { rewrite <- Hnil. unfold sorted. by rewrite merge_sort_Permutation. }
      by apply Permutation_nil_r in Hp. }
    destruct (sorted (r :: rows)) as [|r' rows'] eqn:Hs; [done|].
    simpl. rewrite <- !app_assoc. reflexivity.
Qed.

End Listing.

(** * The claims *)

(** ** Setting a password *)

(** C7. For every username that does not exist, [update_password] returns
    [False] with the error record "User '<username>' does not exist" (the
    script's rendering of NotFound); the one call it issues is the existence
    look-up, and no call that changes the account store is made. *)
Theorem update_password_not_found {W} (os : OS W) (self : UserManager)
    (username : string) (password : option string) (e : Env W) :
  exists_in os self username (world e) = false →
  ∃ e', update_password os self username password e = (Ok false, e')
        ∧ world e' = world e
        ∧ new_logs e e' = [(ERROR, "User '" +:+ username +:+ "' does not exist")]
        ∧ new_calls e e' = [exists_query self username]
        ∧ Forall (λ c, is_mutation c = false) (new_calls e e').
Proof.
  intros Hno. rewrite update_password_missing by done.
  eexists; split; [reflexivity|]. unfold new_logs, new_calls; simpl.
  rewrite !drop_app_length. repeat split.
  constructor; [apply exists_query_not_mutation|constructor].
Qed.

Lemma update_password_not_found_witness :
  ∃ e', update_password Sim.os posix "carol" (Some "s3cr3t")
          (init_env (Sim.stock 0)) = (Ok false, e')
        ∧ world e' = Sim.stock 0
        ∧ new_logs (init_env (Sim.stock 0)) e'
          = [(ERROR, "User 'carol' does not exist")]
        ∧ new_calls (init_env (Sim.stock 0)) e' = [pwd_getpwnam_c "carol"]
        ∧ Forall (λ c, is_mutation c = false) (new_calls (init_env (Sim.stock 0)) e').
Proof.
  apply (update_password_not_found Sim.os posix "carol" (Some "s3cr3t")
           (init_env (Sim.stock 0))).
  vm_compute. reflexivity.
Defined.

(** C5, as stated, fails: on a host where [bob] exists and no password policy
    is set, [update_password "bob" ""] hands the line [bob:] to [chpasswd] and
    returns [True]. *)
Lemma empty_credential_rejected_counterexample :
  ¬ empty_credential_rejected Sim.os posix "bob" (init_env (Sim.stock 0)).
Proof.
  unfold empty_credential_rejected.
  destruct (update_password Sim.os posix "bob" (Some "") (init_env (Sim.stock 0)))
    as [r e'] eqn:Hrun.
  vm_compute in Hrun. injection Hrun as <- <-.
  intros [Hr _]. discriminate Hr.
Qed.

(** C5, amended. For every existing username, [update_password] with an
    empty credential is not rejected: after the existence look-up the empty
    credential is forwarded to the backend ([chpasswd] receives the line
    [<username>:] on POSIX, [NetUserSetInfo] the password [""] on Windows),
    the world is the one the backend leaves, and the result is [True] exactly
    when the backend accepted it. *)
Theorem empty_credential_is_forwarded {W} (os : OS W) (self : UserManager)
    (username : string) (e : Env W) :
  exists_in os self username (world e) = true →
  let '(r, e') := update_password os self username (Some "") e in
  if String.eqb (system self) "win32" then
    new_calls e e' = [NetUserGetInfo_c username 1;
                      NetUserSetInfo_c username 1 (password_info username "")]
    ∧ world e' = (NetUserSetInfo os username 1 (password_info username "") (world e)).2
    ∧ r = Ok (is_Ok (NetUserSetInfo os username 1 (password_info username "")
                                    (world e)).1)
  else
    new_calls e e' = [pwd_getpwnam_c username;
                      Popen_communicate_c ["sudo"; "chpasswd"]
                                          (chpasswd_input username "")]
    ∧ world e' = (Popen_communicate os ["sudo"; "chpasswd"]
                                    (chpasswd_input username "") (world e)).2
    ∧ r = Ok (negb (chpasswd_failed
                      (Popen_communicate os ["sudo"; "chpasswd"]
                                         (chpasswd_input username "") (world e)).1)).
Proof.
  intros Hex. destruct (String.eqb (system self) "win32") eqn:Hsys.
  - destruct (NetUserSetInfo os username 1 (password_info username "") (world e))
      as [r w2] eqn:Hrun.
    destruct (update_password_windows_run os self username "" e r w2 Hsys Hex Hrun)
      as (e' & -> & Hw & Hc & _).
    simpl. by rewrite (new_calls_app e e' _ Hc).
  - destruct (Popen_communicate os ["sudo"; "chpasswd"] (chpasswd_input username "")
                (world e)) as [r w2] eqn:Hrun.
    destruct (update_password_posix_run os self username "" e r w2 Hsys Hex Hrun)
      as (e' & -> & Hw & Hc & _).
    simpl. by rewrite (new_calls_app e e' _ Hc).
Qed.

Lemma empty_credential_is_forwarded_witness :
  let '(r, e') := update_password Sim.os posix "bob" (Some "")
                    (init_env (Sim.stock 0)) in
  new_calls (init_env (Sim.stock 0)) e'
    = [pwd_getpwnam_c "bob";
       Popen_communicate_c ["sudo"; "chpasswd"] (chpasswd_input "bob" "")]
  ∧ world e' = (Sim.communicate ["sudo"; "chpasswd"] (chpasswd_input "bob" "")
                                (Sim.stock 0)).2
  ∧ r = Ok (negb (chpasswd_failed
                    (Sim.communicate ["sudo"; "chpasswd"] (chpasswd_input "bob" "")
                                     (Sim.stock 0)).1)).
Proof.
  apply (empty_credential_is_forwarded Sim.os posix "bob" (init_env (Sim.stock 0))).
  vm_compute. reflexivity.
Defined.

(** ** Creating an account without a credential *)

Lemma useradd_cmd_not_lock username shell home_dir create_home system_user :
  is_lock_step
    (subprocess_run_c (useradd_cmd username shell home_dir create_home system_user))
  = false.
Proof.
  unfold useradd_cmd.
  destruct system_user, (truthy home_dir), create_home, (str_truthy shell);
    reflexivity.
Qed.

Lemma useradd_cmd_not_removal username shell home_dir create_home system_user :
  is_removal
    (subprocess_run_c (useradd_cmd username shell home_dir create_home system_user))
  = false.
Proof.
  unfold useradd_cmd.
  destruct system_user, (truthy home_dir), create_home, (str_truthy shell);
    reflexivity.
Qed.

(** On Windows, [create_user "alice"] without a credential ends with
    [NetUserAdd], which is no lock step, and leaves the account with the blank
    password and the login enabled. *)
Lemma create_ends_with_lock_counterexample :
  ¬ create_ends_with_lock Sim.os windows "alice" "/bin/bash" None true false
      (init_env (Sim.empty 0))
  ∧ (let e' := (create_user Sim.os windows "alice" None "/bin/bash" None true false
                            (init_env (Sim.empty 0))).2 in
     (λ a, (Sim.acc_credential a, Sim.acc_disabled a))
       <$> (Sim.accounts (world e') !! "alice") = Some (Some "", false)).
Proof.
  split.
  - unfold create_ends_with_lock. intros (c & Hlast & Hlock).
    vm_compute in Hlast. injection Hlast as <-. vm_compute in Hlock. discriminate.
  - vm_compute. reflexivity.
Qed.

(** With no credential supplied, besides the existence look-up the only
    call is the account creation ([useradd] on POSIX, [NetUserAdd] with the
    password [""] and the flags [UF_SCRIPT | UF_DONT_EXPIRE_PASSWD] on
    Windows), none of the calls is a lock step, and a creation that succeeds
    logs a warning about the missing password. *)
Theorem create_without_credential_adds_no_lock {W} (os : OS W)
    (self : UserManager) (username shell : string) (home_dir : option string)
    (create_home system_user : bool) (e : Env W) :
  let '(r, e') := create_user os self username None shell home_dir create_home
                              system_user e in
  (new_calls e e' = [exists_query self username]
   ∨ new_calls e e' =
       [exists_query self username;
        if String.eqb (system self) "win32"
        then NetUserAdd_c 1 (create_user_info username None)
        else subprocess_run_c
               (useradd_cmd username shell home_dir create_home system_user)])
  ∧ dict_get (create_user_info username None) "password" = Some (PyStr "")
  ∧ Forall (λ c, is_lock_step c = false) (new_calls e e')
  ∧ (r = Ok true → (WARNING, no_password_warning self username) ∈ new_logs e e').
Proof.
  assert (Hq : is_lock_step (exists_query self username) = false).
  { unfold exists_query. destruct (String.eqb _ _); reflexivity. }
  pose proof (useradd_cmd_not_lock username shell home_dir create_home system_user)
    as Hadd_lock.
  destruct (exists_in os self username (world e)) eqn:Hex.
  { rewrite create_user_found by done. unfold new_calls; simpl.
    rewrite drop_app_length.
    split; [auto|split; [done|split; [repeat (constructor; auto)|]]].
    discriminate. }
  unfold exists_query, no_password_warning in *.
  destruct (String.eqb (system self) "win32") eqn:Hsys.
  - destruct (NetUserAdd os 1 (create_user_info username None) (world e))
      as [r w1] eqn:Hadd.
    destruct r as [[]|x].
    + rewrite (create_user_windows_no_password os self username shell home_dir
                 create_home system_user e w1) by done.
      unfold new_calls, new_logs; simpl.
      rewrite <- !app_assoc, !drop_app_length. simpl.
      split; [auto|split; [done|split; [repeat (constructor; auto)|]]].
      intros _. apply list_elem_of_here.
    + destruct (create_user_windows_run os self username None shell home_dir
                  create_home system_user e _ w1 Hsys Hex Hadd)
        as (e' & -> & _ & Hc).
      rewrite (new_calls_app e e' _ Hc).
      split; [auto|split; [done|split; [repeat (constructor; auto)|]]].
      discriminate.
  - destruct (subprocess_run os
                (useradd_cmd username shell home_dir create_home system_user)
                (world e)) as [r w1] eqn:Hadd.
    destruct r as [[]|x].
    + rewrite (create_user_posix_no_password os self username None shell home_dir
                 create_home system_user e w1) by done.
      unfold new_calls, new_logs; simpl.
      rewrite <- !app_assoc, !drop_app_length. simpl.
      split; [auto|split; [done|split; [repeat (constructor; auto)|]]].
      intros _. apply list_elem_of_here.
    + destruct (create_user_posix_useradd_fails os self username None shell
                  home_dir create_home system_user e x w1 Hsys Hex Hadd)
        as (e' & -> & _ & Hc).
      rewrite (new_calls_app e e' _ Hc).
      split; [auto|split; [done|split; [repeat (constructor; auto)|]]].
      discriminate.
Qed.

(** C6, at the failing input: on Windows, [create_user "alice"] with no
    credential returns [True]; its one backend call besides the look-up is
    [NetUserAdd] with the password [""] and flags without
    [UF_ACCOUNTDISABLE], no call locks the credential, and the new account has
    the blank password with the login enabled, where the docstring of
    [create_user] promises an account that is disabled. *)
Lemma create_user_windows_leaves_blank_password :
  let e := init_env (Sim.empty 0) in
  let '(r, e') := create_user Sim.os windows "alice" None "/bin/bash" None true
                              false e in
  r = Ok true
  ∧ new_calls e e' = [NetUserGetInfo_c "alice" 1;
                      NetUserAdd_c 1 (create_user_info "alice" None)]
  ∧ dict_get (create_user_info "alice" None) "password" = Some (PyStr "")
  ∧ Z.land (dict_flags (create_user_info "alice" None)) UF_ACCOUNTDISABLE = 0
  ∧ Forall (λ c, is_lock_step c = false) (new_calls e e')
  ∧ new_logs e e' = [(WARNING, "User 'alice' created with empty password")]
  ∧ (λ a, (Sim.acc_credential a, Sim.acc_disabled a))
      <$> (Sim.accounts (world e') !! "alice") = Some (Some "", false).
Proof. vm_compute. repeat split; repeat constructor. Qed.

(** ** Removing the home directory on Windows *)

(** C9, as stated, fails: on Windows, [delete_user "bob"] with [remove_home]
    returns [True]. *)
Lemma home_removal_rejected_counterexample :
  ¬ home_removal_rejected Sim.os "bob" (init_env (Sim.stock 0)).
Proof. unfold home_removal_rejected. vm_compute. discriminate. Qed.

(** C9, amended. On Windows, where home removal is not implemented, a delete
    request that asks for home removal removes the account entry with
    [NetUserDel], logs the warning that home removal is not implemented, and
    reports success; no other call is made. *)
Theorem windows_delete_warns_and_succeeds {W} (os : OS W) (username : string)
    (e : Env W) (w1 : W) :
  exists_in os windows username (world e) = true →
  NetUserDel os username (world e) = (Ok tt, w1) →
  ∃ e', delete_user os windows username true e = (Ok true, e')
        ∧ world e' = w1
        ∧ new_calls e e' = [NetUserGetInfo_c username 1; NetUserDel_c username]
        ∧ new_logs e e' =
            [(WARNING, "Home directory removal not implemented for Windows in this script");
             (INFO, "Successfully deleted user '" +:+ username +:+ "'")].
Proof.
  intros Hex Hdel. unfold delete_user, bind.
  rewrite user_exists_eq, Hex. unfold try_except. simpl.
  unfold _delete_user_windows, try_except, bind, command_call. simpl.
  rewrite Hdel. simpl. eexists; split; [reflexivity|].
  unfold new_calls, new_logs; simpl.
  rewrite <- !app_assoc, !drop_app_length. auto.
Qed.

Lemma windows_delete_warns_and_succeeds_witness :
  ∃ e', delete_user Sim.os windows "bob" true (init_env (Sim.stock 0)) = (Ok true, e')
        ∧ world e' = (Sim.net_del "bob" (Sim.stock 0)).2
        ∧ new_calls (init_env (Sim.stock 0)) e'
          = [NetUserGetInfo_c "bob" 1; NetUserDel_c "bob"]
        ∧ new_logs (init_env (Sim.stock 0)) e' =
            [(WARNING, "Home directory removal not implemented for Windows in this script");
             (INFO, "Successfully deleted user 'bob'")].
Proof.
  apply (windows_delete_warns_and_succeeds Sim.os "bob" (init_env (Sim.stock 0))).
  - vm_compute. reflexivity.
  - vm_compute. reflexivity.
Defined.

(** ** Creating and removing accounts *)

(** On a backend that meets the contract (a [useradd] that exits with
    status 0 has created the entry), a successful [create_user] followed
    immediately by [user_exists] returns [True], and a successful
    [delete_user] followed immediately by [user_exists] returns [False]. *)
Theorem exists_after_create_and_delete {W} (os : OS W) (self : UserManager)
    (username : string) :
  backend_contract os self →
  (∀ password shell home_dir create_home system_user (e e1 : Env W),
     create_user os self username password shell home_dir create_home
                 system_user e = (Ok true, e1) →
     (user_exists os self username e1).1 = Ok true)
  ∧ (∀ remove_home (e e1 : Env W),
       delete_user os self username remove_home e = (Ok true, e1) →
       (user_exists os self username e1).1 = Ok false).
Proof.
  intros contract. split.
  - intros password shell home_dir create_home system_user e e1 Hrun.
    rewrite user_exists_eq. simpl. f_equal.
    eapply created_user_exists; eauto.
  - intros remove_home e e1 Hrun.
    rewrite user_exists_eq. simpl. f_equal.
    eapply deleted_user_is_gone; eauto.
Qed.

Lemma exists_after_create_and_delete_witness :
  (user_exists Sim.os posix "alice"
     (create_user Sim.os posix "alice" (Some "s3cr3t") "/bin/bash" None true false
                  (init_env (Sim.empty 0))).2).1 = Ok true
  ∧ (user_exists Sim.os posix "bob"
       (delete_user Sim.os posix "bob" true (init_env (Sim.stock 0))).2).1 = Ok false.
Proof.
  split.
  - apply (proj1 (exists_after_create_and_delete Sim.os posix "alice" (sim_contract posix))
             (Some "s3cr3t") "/bin/bash" None true false (init_env (Sim.empty 0))).
    vm_compute. reflexivity.
  - apply (proj2 (exists_after_create_and_delete Sim.os posix "bob" (sim_contract posix))
             true (init_env (Sim.stock 0))).
    vm_compute. reflexivity.
Defined.

(** On a backend that meets the contract, when a first [create_user]
    succeeds, a second [create_user] with the same username returns [False]
    with the error record "User '<username>' already exists"; it issues the
    existence look-up only and leaves the account store as it was. *)
Theorem create_twice_already_exists {W} (os : OS W) (self : UserManager)
    (username : string) password shell home_dir create_home system_user
    password' shell' home_dir' create_home' system_user' (e e1 : Env W) :
  backend_contract os self →
  create_user os self username password shell home_dir create_home system_user e
    = (Ok true, e1) →
  ∃ e2, create_user os self username password' shell' home_dir' create_home'
                    system_user' e1 = (Ok false, e2)
        ∧ world e2 = world e1
        ∧ new_logs e1 e2 = [(ERROR, "User '" +:+ username +:+ "' already exists")]
        ∧ new_calls e1 e2 = [exists_query self username]
        ∧ Forall (λ c, is_mutation c = false) (new_calls e1 e2).
Proof.
  intros contract Hrun.
  pose proof (created_user_exists os self contract _ _ _ _ _ _ _ _ Hrun) as Hex.
  rewrite create_user_found by done.
  eexists; split; [reflexivity|]. unfold new_logs, new_calls; simpl.
  rewrite !drop_app_length. repeat split.
  constructor; [apply exists_query_not_mutation|constructor].
Qed.

Lemma create_twice_already_exists_witness :
  ∃ e2, create_user Sim.os posix "alice" (Some "s3cr3t") "/bin/bash" None true false
          (create_user Sim.os posix "alice" None "/bin/sh" None false false
                       (init_env (Sim.empty 0))).2 = (Ok false, e2)
        ∧ world e2
          = world (create_user Sim.os posix "alice" None "/bin/sh" None false false
                               (init_env (Sim.empty 0))).2
        ∧ new_logs (create_user Sim.os posix "alice" None "/bin/sh" None false false
                                (init_env (Sim.empty 0))).2 e2
          = [(ERROR, "User 'alice' already exists")]
        ∧ new_calls (create_user Sim.os posix "alice" None "/bin/sh" None false false
                                 (init_env (Sim.empty 0))).2 e2
          = [pwd_getpwnam_c "alice"]
        ∧ Forall (λ c, is_mutation c = false)
            (new_calls (create_user Sim.os posix "alice" None "/bin/sh" None false
                                    false (init_env (Sim.empty 0))).2 e2).
Proof.
  apply (create_twice_already_exists Sim.os posix "alice" None "/bin/sh" None false
           false (Some "s3cr3t") "/bin/bash" None true false
           (init_env (Sim.empty 0)) _ (sim_contract posix)).
  vm_compute. reflexivity.
Defined.

(** C3, at the failing input: [create_user] puts the username last on the
    [useradd] command line and takes exit status 0 for a creation.  For the
    username [--help], [useradd] prints its usage text and exits with status
    0: [create_user] logs the success and returns [True], no entry was
    created, and [user_exists] right after returns [False]. *)
Lemma create_user_help_succeeds_without_entry :
  let e := init_env (Sim.empty 0) in
  let '(r, e1) := create_user UsageHost.os posix "--help" None "/bin/bash" None
                              true false e in
  r = Ok true
  ∧ new_calls e e1 =
      [pwd_getpwnam_c "--help";
       subprocess_run_c
         ["sudo"; "useradd"; "-m"; "-d"; "/home/--help"; "-s"; "/bin/bash";
          "--help"]]
  ∧ new_logs e e1 =
      [(WARNING, "User '--help' created without password - account may be disabled");
       (INFO, "Successfully created user '--help'")]
  ∧ world e1 = Sim.empty 0
  ∧ (user_exists UsageHost.os posix "--help" e1).1 = Ok false.
Proof. vm_compute. repeat split. Qed.

(** C4, at the failing input: for the username [--help] the second
    [create_user] is not refused.  Both calls return [True], the second one
    logs no "already exists" record and runs [useradd] again. *)
Lemma create_user_help_twice_succeeds :
  let e := init_env (Sim.empty 0) in
  let '(r1, e1) := create_user UsageHost.os posix "--help" None "/bin/bash" None
                               true false e in
  let '(r2, e2) := create_user UsageHost.os posix "--help" None "/bin/bash" None
                               true false e1 in
  r1 = Ok true ∧ r2 = Ok true
  ∧ new_calls e1 e2 =
      [pwd_getpwnam_c "--help";
       subprocess_run_c
         ["sudo"; "useradd"; "-m"; "-d"; "/home/--help"; "-s"; "/bin/bash";
          "--help"]]
  ∧ new_logs e1 e2 =
      [(WARNING, "User '--help' created without password - account may be disabled");
       (INFO, "Successfully created user '--help'")].
Proof. vm_compute. repeat split. Qed.

(** C1, as stated, fails: on a host whose password policy asks for eight
    characters, [create_user "alice"] with the password [abc] creates the
    entry, [chpasswd] rejects the password, no removal is attempted and the
    entry stays. *)
Lemma rollback_as_stated_counterexample :
  ¬ rollback_as_stated Sim.os posix "alice" "abc" "/bin/bash" None true false
      (init_env (Sim.empty 8)).
Proof.
  unfold rollback_as_stated. intros H.
  destruct (Sim.run (useradd_cmd "alice" "/bin/bash" None true false) (Sim.empty 8))
    as [r1 w1] eqn:Hadd.
  destruct (Sim.communicate ["sudo"; "chpasswd"] (chpasswd_input "alice" "abc") w1)
    as [r w2] eqn:Hch.
  vm_compute in Hadd. injection Hadd as <- <-.
  specialize (H _ r w2 eq_refl eq_refl Hch).
  vm_compute in Hch. injection Hch as <- <-.
  destruct (H eq_refl) as [Hsame|(c & Hc & Hrem)].
  - specialize (Hsame "alice"). vm_compute in Hsame. discriminate.
  - vm_compute in Hc.
    repeat (apply elem_of_cons in Hc as [->|Hc]; [vm_compute in Hrem; discriminate|]).
    by apply elem_of_nil in Hc.
Qed.

(** C1, amended. If the credential-setting step fails after the account
    entry was created (and whatever its result is), [create_user] runs no
    compensating action: the calls are the forward calls only (look-up,
    [useradd], look-up, [chpasswd]), none of them removes an entry, and the
    account store afterwards is exactly the one that [chpasswd] left: the
    created entry is still in place, and [user_exists] returns [True] right
    after, whenever [chpasswd] itself left that entry in place. *)
Theorem create_user_runs_no_compensation {W} (os : OS W) (self : UserManager)
    (username p shell : string) (home_dir : option string)
    (create_home system_user : bool) (e : Env W) (w1 : W)
    (r : outcome (Z * string * string)) (w2 : W) :
  String.eqb (system self) "win32" = false →
  truthy (Some p) = true →
  exists_in os self username (world e) = false →
  subprocess_run os (useradd_cmd username shell home_dir create_home system_user)
                 (world e) = (Ok tt, w1) →
  exists_in os self username w1 = true →
  Popen_communicate os ["sudo"; "chpasswd"] (chpasswd_input username p) w1
    = (r, w2) →
  let e' := (create_user os self username (Some p) shell home_dir create_home
                         system_user e).2 in
  new_calls e e' =
    [pwd_getpwnam_c username;
     subprocess_run_c (useradd_cmd username shell home_dir create_home system_user);
     pwd_getpwnam_c username;
     Popen_communicate_c ["sudo"; "chpasswd"] (chpasswd_input username p)]
  ∧ Forall (λ c, is_removal c = false) (new_calls e e')
  ∧ world e' = w2
  ∧ (is_Ok (pwd_getpwnam os username w2) = is_Ok (pwd_getpwnam os username w1) →
     exists_in os self username (world e') = true
     ∧ (user_exists os self username e').1 = Ok true).
Proof.
  intros Hsys Hpw Hex Hadd Hex1 Hch.
  set (e2 := set_world w1
               (add_call (subprocess_run_c
                  (useradd_cmd username shell home_dir create_home system_user))
                  (add_call (pwd_getpwnam_c username) e))).
  destruct (update_password_posix_run os self username p e2 r w2 Hsys Hex1 Hch)
    as (e3 & Hup & Hw & Hc & _).
  erewrite create_user_posix_password by eauto.
  simpl. unfold new_calls; simpl. rewrite Hc. simpl.
  rewrite <- !app_assoc, drop_app_length. simpl.
  pose proof (useradd_cmd_not_removal username shell home_dir create_home system_user).
  assert (is_Ok (pwd_getpwnam os username w2) = is_Ok (pwd_getpwnam os username w1) →
          exists_in os self username w2 = true) as Hkept.
  { intros Hkeep. unfold exists_in in *. rewrite Hsys in *. congruence. }
  split; [done|]. split; [repeat (constructor; auto)|]. split; [done|].
  intros Hkeep. rewrite user_exists_eq. simpl. rewrite Hw.
  rewrite (Hkept Hkeep). done.
Qed.

Lemma create_user_runs_no_compensation_witness :
  let e := init_env (Sim.empty 8) in
  let e' := (create_user Sim.os posix "alice" (Some "abc") "/bin/bash" None true
                         false e).2 in
  new_calls e e' =
    [pwd_getpwnam_c "alice";
     subprocess_run_c (useradd_cmd "alice" "/bin/bash" None true false);
     pwd_getpwnam_c "alice";
     Popen_communicate_c ["sudo"; "chpasswd"] (chpasswd_input "alice" "abc")]
  ∧ Forall (λ c, is_removal c = false) (new_calls e e')
  ∧ world e' =
      (Sim.communicate ["sudo"; "chpasswd"] (chpasswd_input "alice" "abc")
         (Sim.run (useradd_cmd "alice" "/bin/bash" None true false) (Sim.empty 8)).2).2
  ∧ exists_in Sim.os posix "alice" (world e') = true
  ∧ (user_exists Sim.os posix "alice" e').1 = Ok true.
Proof.
  intros e e'.
  destruct (create_user_runs_no_compensation Sim.os posix "alice" "abc" "/bin/bash"
              None true false (init_env (Sim.empty 8))
              (Sim.run (useradd_cmd "alice" "/bin/bash" None true false)
                       (Sim.empty 8)).2
              (Sim.communicate ["sudo"; "chpasswd"] (chpasswd_input "alice" "abc")
                 (Sim.run (useradd_cmd "alice" "/bin/bash" None true false)
                          (Sim.empty 8)).2).1
              (Sim.communicate ["sudo"; "chpasswd"] (chpasswd_input "alice" "abc")
                 (Sim.run (useradd_cmd "alice" "/bin/bash" None true false)
                          (Sim.empty 8)).2).2)
    as (Hcalls & Hrem & Hworld & Hkept); try (vm_compute; reflexivity).
  split; [exact Hcalls|]. split; [exact Hrem|]. split; [exact Hworld|].
  apply Hkept. vm_compute. reflexivity.
Defined.

(** C2, at the failing input: on a host whose password policy asks for eight
    characters, [create_user "alice"] with the password [abc] and home
    creation requested returns [True] after logging that [chpasswd] failed;
    the entry and the home directory are there, the credential is not set. *)
Lemma create_user_success_without_credential :
  let e := init_env (Sim.empty 8) in
  let '(r, e') := create_user Sim.os posix "alice" (Some "abc") "/bin/bash" None
                              true false e in
  r = Ok true
  ∧ new_logs e e' =
      [(ERROR, "chpasswd failed: chpasswd: password rejected by policy");
       (INFO, "Successfully created user 'alice'")]
  ∧ is_Ok (Sim.getpwnam "alice" (world e')) = true
  ∧ bool_decide ("/home/alice" ∈ Sim.homes (world e')) = true
  ∧ Sim.acc_credential <$> (Sim.accounts (world e') !! "alice") = Some None.
Proof. vm_compute. repeat split. Qed.

(** ** Listing accounts *)

Lemma matches_spec (p username : string) :
  matches (Some p) username = true ↔
  p = "" ∨ ∃ t1 t2, lower username = t1 +:+ lower p +:+ t2.
Proof.
  unfold matches. rewrite orb_true_iff, contains_spec.
  destruct p as [|a p]; simpl.
  - split; auto.
  - split.
    + intros [?|?]; [discriminate|auto].
    + intros [?|?]; [discriminate|auto].
Qed.

Lemma render_length (rows : list row) :
  length (render rows) = match rows with [] => 1%nat | _ => (2 + length rows)%nat end.
Proof. destruct rows; simpl; [done|]. by rewrite length_fmap. Qed.

(** C8, as stated, fails: with the pattern [adm] the listing prints [Admin]
    only, although [sysadm] (identifier 998) contains the pattern too. *)
Lemma lists_exactly_the_matching_counterexample :
  ¬ lists_exactly_the_matching Sim.os posix (Some "adm") (init_env (Sim.stock 0)).
Proof.
  intros (entries & rows & Hall & Hout & Hperm & _).
  vm_compute in Hall. injection Hall as <-.
  apply (f_equal length) in Hout. rewrite render_length in Hout.
  apply Permutation_length in Hperm. rewrite length_fmap in Hperm.
  vm_compute in Hout, Hperm.
  destruct rows as [|r1 [|r2 rows]]; simpl in *; discriminate.
Qed.

(** C8, amended. For every filter pattern, the listing prints exactly the
    entries whose username contains the pattern as a substring (compared in
    lower case; no pattern or an empty one matches every username) and whose
    numeric identifier is at least 1000 or exactly 0, in ascending order of
    username. *)
Theorem list_prints_matching_with_listed_uid {W} (os : OS W) (self : UserManager)
    (pattern : option string) (e : Env W) (entries : list struct_passwd) :
  pwd_getpwall os (world e) = Ok entries →
  let rows := listed_rows pattern entries in
  new_lines e (_list_users_linux os self pattern e).2 = render rows
  ∧ rows ≡ₚ to_row <$>
             List.filter (λ user, matches pattern (pw_name user)
                                  && listed_uid (pw_uid user)) entries
  ∧ StronglySorted (λ r1 r2, (username_of r1 ≤ username_of r2)%string) rows
  ∧ (∀ p username,
       matches (Some p) username = true ↔
       p = "" ∨ ∃ t1 t2, lower username = t1 +:+ lower p +:+ t2).
Proof.
  intros Hall. rewrite (_list_users_linux_eq os self pattern e entries Hall).
  simpl. repeat split.
  - unfold new_lines; simpl. by rewrite drop_app_length.
  - unfold listed_rows, sorted.
    by rewrite merge_sort_Permutation, linux_collect_filter.
  - apply sorted_by_username.
  - apply matches_spec.
  - apply matches_spec.
Qed.

Lemma list_prints_matching_with_listed_uid_witness :
  let e := init_env (Sim.stock 0) in
  let entries := (λ na, Sim.entry na.1 na.2) <$> map_to_list (Sim.accounts (Sim.stock 0)) in
  let rows := listed_rows (Some "adm") entries in
  new_lines e (_list_users_linux Sim.os posix (Some "adm") e).2 = render rows
  ∧ rows ≡ₚ to_row <$>
             List.filter (λ user, matches (Some "adm") (pw_name user)
                                  && listed_uid (pw_uid user)) entries
  ∧ StronglySorted (λ r1 r2, (username_of r1 ≤ username_of r2)%string) rows
  ∧ (∀ p username,
       matches (Some p) username = true ↔
       p = "" ∨ ∃ t1 t2, lower username = t1 +:+ lower p +:+ t2).
Proof.
  apply (list_prints_matching_with_listed_uid Sim.os posix (Some "adm")
           (init_env (Sim.stock 0))).
  reflexivity.
Defined.

(** C10. On POSIX, for every filter pattern, the listing includes an entry
    if and only if its numeric identifier is at least 1000 or exactly 0 and
    its username matches the filter; in particular an entry with identifier 0
    that matches is listed, and no listed row has an identifier from 1 to
    999. *)
Theorem list_includes_iff_uid_1000_or_0 {W} (os : OS W) (self : UserManager)
    (pattern : option string) (e : Env W) (entries : list struct_passwd) :
  pwd_getpwall os (world e) = Ok entries →
  ∃ rows,
    new_lines e (_list_users_linux os self pattern e).2 = render rows
    ∧ (∀ user, user ∈ entries →
         (to_row user ∈ rows ↔
          matches pattern (pw_name user) = true
          ∧ (1000 ≤ pw_uid user ∨ pw_uid user = 0)))
    ∧ (∀ r, r ∈ rows → ∃ user, user ∈ entries ∧ r = to_row user)
    ∧ (∀ user, user ∈ entries → pw_uid user = 0 →
         matches pattern (pw_name user) = true → to_row user ∈ rows)
    ∧ (∀ r, r ∈ rows → ¬ (1 ≤ uid_of r ≤ 999)).
Proof.
  intros Hall. exists (listed_rows pattern entries).
  rewrite (_list_users_linux_eq os self pattern e entries Hall). simpl.
  split; [|split; [|split; [|split]]].
  - unfold new_lines; simpl. by rewrite drop_app_length.
  - intros user Hin. rewrite elem_of_listed_rows. split.
    + intros (user' & _ & Heq & Hm & Hu). unfold to_row in Heq.
      injection Heq as -> -> _. done.
    + intros [Hm Hu]. by exists user.
  - intros r Hr. apply elem_of_listed_rows in Hr as (user & ? & ? & _). eauto.
  - intros user Hin Hroot Hm. apply elem_of_listed_rows. exists user.
    repeat split; auto.
  - intros r Hr. apply elem_of_listed_rows in Hr as (user & _ & -> & _ & Hu).
    unfold uid_of, to_row; simpl. lia.
Qed.

Lemma list_includes_iff_uid_1000_or_0_witness :
  let e := init_env (Sim.stock 0) in
  let entries := (λ na, Sim.entry na.1 na.2) <$> map_to_list (Sim.accounts (Sim.stock 0)) in
  ∃ rows,
    new_lines e (_list_users_linux Sim.os posix None e).2 = render rows
    ∧ (∀ user, user ∈ entries →
         (to_row user ∈ rows ↔
          matches None (pw_name user) = true
          ∧ (1000 ≤ pw_uid user ∨ pw_uid user = 0)))
    ∧ (∀ r, r ∈ rows → ∃ user, user ∈ entries ∧ r = to_row user)
    ∧ (∀ user, user ∈ entries → pw_uid user = 0 →
         matches None (pw_name user) = true → to_row user ∈ rows)
    ∧ (∀ r, r ∈ rows → ¬ (1 ≤ uid_of r ≤ 999)).
Proof.
  apply (list_includes_iff_uid_1000_or_0 Sim.os posix None (init_env (Sim.stock 0))).
  reflexivity.
Defined.

(** * Further properties of the methods *)

(** ** [user_exists] *)

(** X1. [user_exists] never raises: whatever exception the look-up raises,
    a missing name or any other error, it returns [False], after that one
    look-up and with the world as it was. *)
Theorem user_exists_false_on_any_error {W} (os : OS W) (self : UserManager)
    (username : string) (e : Env W) (x : exn) :
  (if String.eqb (system self) "win32"
   then NetUserGetInfo os username 1 (world e) = Raise x
   else pwd_getpwnam os username (world e) = Raise x) →
  user_exists os self username e
  = (Ok false, add_call (exists_query self username) e).
Proof.
  intros Hraise. rewrite user_exists_eq. unfold exists_in.
  destruct (String.eqb (system self) "win32"); by rewrite Hraise.
Qed.

Lemma user_exists_false_on_any_error_witness :
  user_exists Sim.os posix "carol" (init_env (Sim.stock 0))
  = (Ok false, add_call (pwd_getpwnam_c "carol") (init_env (Sim.stock 0))).
Proof.
  apply (user_exists_false_on_any_error Sim.os posix "carol" (init_env (Sim.stock 0))
           (KeyError "'getpwnam(): name not found: carol'")).
  vm_compute. reflexivity.
Defined.

(** ** [create_user] *)

Lemma create_user_returns {W} (os : OS W) (self : UserManager)
    (username : string) (password : option string) (shell : string)
    (home_dir : option string) (create_home system_user : bool) (e : Env W) :
  ∃ b e', create_user os self username password shell home_dir create_home
                      system_user e = (Ok b, e').
Proof.
  destruct (exists_in os self username (world e)) eqn:Hex.
  { rewrite create_user_found by done. eauto. }
  destruct (String.eqb (system self) "win32") eqn:Hsys.
  - destruct (NetUserAdd os 1 (create_user_info username password) (world e))
      as [r w1] eqn:Hadd.
    destruct (create_user_windows_run os self username password shell home_dir
                create_home system_user e r w1 Hsys Hex Hadd) as (e' & -> & _).
    eauto.
  - destruct (subprocess_run os
                (useradd_cmd username shell home_dir create_home system_user)
                (world e)) as [[[]|x] w1] eqn:Hadd.
    + destruct (truthy password) eqn:Hpw.
      * destruct password as [p|]; [|discriminate].
        destruct (update_password_returns os self username p
                    (set_world w1
                       (add_call (subprocess_run_c
                          (useradd_cmd username shell home_dir create_home
                                       system_user))
                          (add_call (pwd_getpwnam_c username) e))))
          as (b & e3 & Hup).
        erewrite create_user_posix_password by eauto. eauto.
      * erewrite create_user_posix_no_password by eauto. eauto.
    + destruct (create_user_posix_useradd_fails os self username password shell
                  home_dir create_home system_user e x w1 Hsys Hex Hadd)
        as (e' & -> & _).
      eauto.
Qed.

(** X2. [create_user] always returns a boolean: no exception of the backend,
    whatever its class, leaves the method. *)
Theorem create_user_never_raises {W} (os : OS W) (self : UserManager)
    (username : string) (password : option string) (shell : string)
    (home_dir : option string) (create_home system_user : bool) (e : Env W) :
  ∃ b e', create_user os self username password shell home_dir create_home
                      system_user e = (Ok b, e').
Proof. apply create_user_returns. Qed.

(** X3. An empty password is no password: [create_user] with [""] runs as
    [create_user] with [None] (on POSIX no [chpasswd] call, on Windows the
    same [user_info]). *)
Theorem create_user_empty_password_is_none {W} (os : OS W) (self : UserManager)
    (username shell : string) (home_dir : option string)
    (create_home system_user : bool) (e : Env W) :
  create_user os self username (Some "") shell home_dir create_home system_user e
  = create_user os self username None shell home_dir create_home system_user e.
Proof. reflexivity. Qed.

(** X4. When a home directory path is supplied, [create_home] has no effect:
    [useradd] gets [-d <path>] and neither [-m] nor [-M], whether home
    creation was requested or not. *)
Theorem create_user_home_dir_overrides_create_home {W} (os : OS W)
    (self : UserManager) (username : string) (password : option string)
    (shell : string) (a : ascii) (path : string) (system_user : bool) (e : Env W) :
  create_user os self username password shell (Some (String a path)) true
              system_user e
  = create_user os self username password shell (Some (String a path)) false
                system_user e
  ∧ useradd_cmd username shell (Some (String a path)) true system_user
    = ["sudo"; "useradd"] ++ (if system_user then ["-r"] else [])
      ++ ["-d"; String a path]
      ++ (if str_truthy shell then ["-s"; shell] else []) ++ [username].
Proof.
  split; [reflexivity|].
  unfold useradd_cmd. destruct system_user, (str_truthy shell); reflexivity.
Qed.

(** X5. On Windows, [create_user] ignores the shell, the home directory, the
    home creation flag and the system flag: the run depends on the username
    and the password only. *)
Theorem create_user_windows_ignores_options {W} (os : OS W)
    (username : string) (password : option string) (shell shell' : string)
    (home_dir home_dir' : option string)
    (create_home create_home' system_user system_user' : bool) (e : Env W) :
  create_user os windows username password shell home_dir create_home
              system_user e
  = create_user os windows username password shell' home_dir' create_home'
                system_user' e.
Proof. reflexivity. Qed.

(** X6. On POSIX, when [useradd] fails, [create_user] returns [False] and
    stops there: no password is set, the calls are the look-up and [useradd],
    and one error record is logged, with the captured [stderr] for a non-zero
    exit status and with the exception text for any other exception. *)
Theorem create_user_useradd_failure {W} (os : OS W) (username : string)
    (password : option string) (shell : string) (home_dir : option string)
    (create_home system_user : bool) (e : Env W) (x : exn) (w1 : W) :
  exists_in os posix username (world e) = false →
  subprocess_run os (useradd_cmd username shell home_dir create_home system_user)
                 (world e) = (Raise x, w1) →
  ∃ e', create_user os posix username password shell home_dir create_home
                    system_user e = (Ok false, e')
        ∧ world e' = w1
        ∧ new_calls e e' =
            [pwd_getpwnam_c username;
             subprocess_run_c
               (useradd_cmd username shell home_dir create_home system_user)]
        ∧ new_logs e e' =
            [(ERROR,
              match x with
              | CalledProcessError _ stderr => "useradd command failed: " +:+ stderr
              | _ => "Failed to create user '" +:+ username +:+ "': " +:+ exn_str x
              end)].
Proof.
  intros Hex Hrun. unfold create_user, bind.
  rewrite user_exists_eq, Hex. unfold try_except. simpl.
  unfold _create_user_linux, try_except, bind, command_call. simpl.
  rewrite Hrun. simpl.
  destruct x; simpl; eexists; (split; [reflexivity|]);
    unfold new_calls, new_logs; simpl;
    rewrite <- !app_assoc, !drop_app_length; auto.
Qed.

Lemma create_user_useradd_failure_witness :
  ∃ e', create_user Sim.os posix "-x" (Some "s3cr3t") "/bin/bash" None true false
                    (init_env (Sim.empty 0)) = (Ok false, e')
        ∧ world e' = Sim.empty 0
        ∧ new_calls (init_env (Sim.empty 0)) e' =
            [pwd_getpwnam_c "-x";
             subprocess_run_c (useradd_cmd "-x" "/bin/bash" None true false)]
        ∧ new_logs (init_env (Sim.empty 0)) e' =
            [(ERROR, "useradd command failed: Usage: useradd [options] LOGIN")].
Proof.
  apply (create_user_useradd_failure Sim.os "-x" (Some "s3cr3t") "/bin/bash" None
           true false (init_env (Sim.empty 0))
           (CalledProcessError "useradd returned non-zero exit status 2."
                               "Usage: useradd [options] LOGIN")).
  - vm_compute. reflexivity.
  - vm_compute. reflexivity.
Defined.

(** X7. On Windows, [create_user] for a username that does not exist issues
    one [NetUserAdd] with the password in the [user_info] dictionary (the
    empty string when none is given) and returns [True] exactly when that call
    returns normally. *)
Theorem create_user_windows_result {W} (os : OS W) (username : string)
    (password : option string) (shell : string) (home_dir : option string)
    (create_home system_user : bool) (e : Env W) :
  exists_in os windows username (world e) = false →
  let '(r, e') := create_user os windows username password shell home_dir
                              create_home system_user e in
  r = Ok (is_Ok (NetUserAdd os 1 (create_user_info username password) (world e)).1)
  ∧ world e' = (NetUserAdd os 1 (create_user_info username password) (world e)).2
  ∧ new_calls e e' = [NetUserGetInfo_c username 1;
                      NetUserAdd_c 1 (create_user_info username password)]
  ∧ dict_get (create_user_info username password) "password"
    = Some (PyStr (str_or password "")).
Proof.
  intros Hex.
  destruct (NetUserAdd os 1 (create_user_info username password) (world e))
    as [r w1] eqn:Hadd.
  destruct (create_user_windows_run os windows username password shell home_dir
              create_home system_user e r w1 eq_refl Hex Hadd)
    as (e' & -> & Hw & Hc).
  simpl. by rewrite (new_calls_app e e' _ Hc).
Qed.

Lemma create_user_windows_result_witness :
  let e := init_env (Sim.empty 0) in
  let '(r, e') := create_user Sim.os windows "alice" (Some "s3cr3t") "" None false
                              false e in
  r = Ok (is_Ok (Sim.net_add 1 (create_user_info "alice" (Some "s3cr3t"))
                             (Sim.empty 0)).1)
  ∧ world e' = (Sim.net_add 1 (create_user_info "alice" (Some "s3cr3t"))
                            (Sim.empty 0)).2
  ∧ new_calls e e' = [NetUserGetInfo_c "alice" 1;
                      NetUserAdd_c 1 (create_user_info "alice" (Some "s3cr3t"))]
  ∧ dict_get (create_user_info "alice" (Some "s3cr3t")) "password"
    = Some (PyStr (str_or (Some "s3cr3t") "")).
Proof.
  apply (create_user_windows_result Sim.os "alice" (Some "s3cr3t") "" None false
           false (init_env (Sim.empty 0))).
  vm_compute. reflexivity.
Defined.

(** ** [update_password] *)

(** X8. For an existing username and a supplied password, [update_password]
    forwards the password unchanged in one call ([chpasswd] gets the line
    [<username>:<password>], [NetUserSetInfo] the dictionary with [name],
    [password] and [priv]) and returns [True] exactly when the backend accepted
    it: return code 0 on POSIX, a normal return on Windows.  It never
    raises. *)
Theorem update_password_reports_backend_result {W} (os : OS W)
    (self : UserManager) (username p : string) (e : Env W) :
  exists_in os self username (world e) = true →
  let '(r, e') := update_password os self username (Some p) e in
  new_calls e e' = [exists_query self username; set_password_call self username p]
  ∧ if String.eqb (system self) "win32" then
      world e' = (NetUserSetInfo os username 1 (password_info username p) (world e)).2
      ∧ r = Ok (is_Ok (NetUserSetInfo os username 1 (password_info username p)
                                      (world e)).1)
    else
      world e' = (Popen_communicate os ["sudo"; "chpasswd"]
                                    (chpasswd_input username p) (world e)).2
      ∧ r = Ok (negb (chpasswd_failed
                        (Popen_communicate os ["sudo"; "chpasswd"]
                                           (chpasswd_input username p) (world e)).1)).
Proof.
  intros Hex. unfold set_password_call, exists_query.
  destruct (String.eqb (system self) "win32") eqn:Hsys.
  - destruct (NetUserSetInfo os username 1 (password_info username p) (world e))
      as [r w2] eqn:Hrun.
    destruct (update_password_windows_run os self username p e r w2 Hsys Hex Hrun)
      as (e' & -> & Hw & Hc & Hout).
    simpl. rewrite (new_calls_app e e' _ Hc). done.
  - destruct (Popen_communicate os ["sudo"; "chpasswd"] (chpasswd_input username p)
                (world e)) as [r w2] eqn:Hrun.
    destruct (update_password_posix_run os self username p e r w2 Hsys Hex Hrun)
      as (e' & -> & Hw & Hc & Hout).
    simpl. rewrite (new_calls_app e e' _ Hc). done.
Qed.

Lemma update_password_reports_backend_result_witness :
  let e := init_env (Sim.stock 8) in
  let '(r, e') := update_password Sim.os posix "bob" (Some "short") e in
  new_calls e e' = [exists_query posix "bob"; set_password_call posix "bob" "short"]
  ∧ world e' = (Sim.communicate ["sudo"; "chpasswd"] (chpasswd_input "bob" "short")
                                (Sim.stock 8)).2
  ∧ r = Ok (negb (chpasswd_failed
                    (Sim.communicate ["sudo"; "chpasswd"]
                                     (chpasswd_input "bob" "short") (Sim.stock 8)).1)).
Proof.
  apply (update_password_reports_backend_result Sim.os posix "bob" "short"
           (init_env (Sim.stock 8))).
  vm_compute. reflexivity.
Defined.

Section Prompt.
Context {W : Type} (os : OS W).

Lemma update_password_prompt_eq self username (e : Env W) :
  exists_in os self username (world e) = true →
  update_password os self username None e =
  let e1 := add_call (exists_query self username) e in
  let '(r1, w1) := getpass_getpass os (new_password_prompt username) (world e) in
  let e2 := set_world w1 (add_call (getpass_c (new_password_prompt username)) e1) in
  match r1 with
  | Raise x => (Raise x, e2)
  | Ok p =>
      let '(r2, w2) := getpass_getpass os confirm_prompt w1 in
      let e3 := set_world w2 (add_call (getpass_c confirm_prompt) e2) in
      match r2 with
      | Raise x => (Raise x, e3)
      | Ok confirm =>
          if String.eqb p confirm then
            try_except
              (if String.eqb (system self) "win32" then
                 _update_password_windows os self username p
               else _update_password_linux os self username p)
              isinstance_Exception
              (λ x, logger ERROR ("Failed to update password for '" +:+ username
                                  +:+ "': " +:+ exn_str x) ;;;
                    ret false) e3
          else (Ok false, add_log ERROR "Passwords do not match" e3)
      end
  end.
Proof.
  intros Hex. unfold update_password, bind at 1.
  rewrite user_exists_eq, Hex. cbn [negb].
  unfold bind, command_call, new_password_prompt, confirm_prompt. simpl.
  destruct (getpass_getpass os _ (world e)) as [[p|x] w1]; [|reflexivity].
  simpl. destruct (getpass_getpass os _ w1) as [[c|x] w2]; [|reflexivity].
  simpl. destruct (String.eqb p c); reflexivity.
Qed.

End Prompt.

(** X9. When no password is supplied and the two entries at the prompt
    differ, [update_password] logs "Passwords do not match" and returns
    [False]; the calls are the look-up and the two prompts, and nothing is
    forwarded to the backend. *)
Theorem update_password_prompt_mismatch {W} (os : OS W) (self : UserManager)
    (username p confirm : string) (e : Env W) (w1 w2 : W) :
  exists_in os self username (world e) = true →
  getpass_getpass os (new_password_prompt username) (world e) = (Ok p, w1) →
  getpass_getpass os confirm_prompt w1 = (Ok confirm, w2) →
  p ≠ confirm →
  ∃ e', update_password os self username None e = (Ok false, e')
        ∧ world e' = w2
        ∧ new_calls e e' =
            [exists_query self username;
             getpass_c (new_password_prompt username); getpass_c confirm_prompt]
        ∧ new_logs e e' = [(ERROR, "Passwords do not match")]
        ∧ Forall (λ c, is_mutation c = false) (new_calls e e').
Proof.
  intros Hex H1 H2 Hne. rewrite update_password_prompt_eq by done.
  simpl. rewrite H1, H2.
  apply String.eqb_neq in Hne. rewrite Hne.
  eexists; split; [reflexivity|].
  unfold new_calls, new_logs; simpl. rewrite <- !app_assoc, !drop_app_length.
  repeat split. repeat constructor. apply exists_query_not_mutation.
Qed.

Lemma update_password_prompt_mismatch_witness :
  let w := {| Sim.accounts := Sim.accounts (Sim.stock 0);
              Sim.homes := Sim.homes (Sim.stock 0);
              Sim.next_uid := 1002; Sim.next_system_uid := 100;
              Sim.min_password_len := 0; Sim.keyboard := ["hunter2"; "hunter3"] |} in
  ∃ e', update_password Sim.os posix "bob" None (init_env w) = (Ok false, e')
        ∧ world e' = (Sim.ask confirm_prompt
                        (Sim.ask (new_password_prompt "bob") w).2).2
        ∧ new_calls (init_env w) e' =
            [exists_query posix "bob";
             getpass_c (new_password_prompt "bob"); getpass_c confirm_prompt]
        ∧ new_logs (init_env w) e' = [(ERROR, "Passwords do not match")]
        ∧ Forall (λ c, is_mutation c = false) (new_calls (init_env w) e').
Proof.
  intros w.
  apply (update_password_prompt_mismatch Sim.os posix "bob" "hunter2" "hunter3"
           (init_env w) (Sim.ask (new_password_prompt "bob") w).2).
  - vm_compute. reflexivity.
  - vm_compute. reflexivity.
  - vm_compute. reflexivity.
  - discriminate.
Defined.

(** X10. When no password is supplied and the two entries at the prompt
    agree, [update_password] forwards the entered password like a supplied
    one: after the look-up and the two prompts the one further call is the
    password call with the entry, on the world the prompts left. *)
Theorem update_password_prompt_match {W} (os : OS W) (self : UserManager)
    (username p : string) (e : Env W) (w1 w2 : W) :
  exists_in os self username (world e) = true →
  getpass_getpass os (new_password_prompt username) (world e) = (Ok p, w1) →
  getpass_getpass os confirm_prompt w1 = (Ok p, w2) →
  let '(r, e') := update_password os self username None e in
  new_calls e e' =
    [exists_query self username;
     getpass_c (new_password_prompt username); getpass_c confirm_prompt;
     set_password_call self username p]
  ∧ if String.eqb (system self) "win32" then
      world e' = (NetUserSetInfo os username 1 (password_info username p) w2).2
      ∧ r = Ok (is_Ok (NetUserSetInfo os username 1 (password_info username p) w2).1)
    else
      world e' = (Popen_communicate os ["sudo"; "chpasswd"]
                                    (chpasswd_input username p) w2).2
      ∧ r = Ok (negb (chpasswd_failed
                        (Popen_communicate os ["sudo"; "chpasswd"]
                                           (chpasswd_input username p) w2).1)).
Proof.
  intros Hex H1 H2. rewrite update_password_prompt_eq by done.
  simpl. rewrite H1, H2, String.eqb_refl.
  unfold set_password_call, try_except.
  destruct (String.eqb (system self) "win32") eqn:Hsys.
  - unfold _update_password_windows, try_except, bind, command_call. simpl.
    fold (password_info username p).
    destruct (NetUserSetInfo os username 1 (password_info username p) w2)
      as [[[]|x] w3]; simpl;
      unfold new_calls; simpl; rewrite <- !app_assoc, drop_app_length; auto.
  - unfold _update_password_linux, try_except, bind, command_call. simpl.
    fold (chpasswd_input username p).
    destruct (Popen_communicate os ["sudo"; "chpasswd"] (chpasswd_input username p)
                w2) as [[[[rc out] err]|x] w3]; simpl;
      [destruct (rc =? 0); simpl|];
      unfold new_calls; simpl; rewrite <- !app_assoc, drop_app_length; auto.
Qed.

Lemma update_password_prompt_match_witness :
  let w := {| Sim.accounts := Sim.accounts (Sim.stock 0);
              Sim.homes := Sim.homes (Sim.stock 0);
              Sim.next_uid := 1002; Sim.next_system_uid := 100;
              Sim.min_password_len := 0; Sim.keyboard := ["hunter2"; "hunter2"] |} in
  let w2 := (Sim.ask confirm_prompt (Sim.ask (new_password_prompt "bob") w).2).2 in
  let '(r, e') := update_password Sim.os posix "bob" None (init_env w) in
  new_calls (init_env w) e' =
    [exists_query posix "bob";
     getpass_c (new_password_prompt "bob"); getpass_c confirm_prompt;
     set_password_call posix "bob" "hunter2"]
  ∧ world e' = (Sim.communicate ["sudo"; "chpasswd"]
                                (chpasswd_input "bob" "hunter2") w2).2
  ∧ r = Ok (negb (chpasswd_failed
                    (Sim.communicate ["sudo"; "chpasswd"]
                                     (chpasswd_input "bob" "hunter2") w2).1)).
Proof.
  intros w w2.
  apply (update_password_prompt_match Sim.os posix "bob" "hunter2" (init_env w)
           (Sim.ask (new_password_prompt "bob") w).2 w2).
  - vm_compute. reflexivity.
  - vm_compute. reflexivity.
  - vm_compute. reflexivity.
Defined.

(** X11. The prompts of [update_password] stand outside its [try]: when
    [getpass] raises (the first or the second time), the exception leaves
    [update_password], and nothing has been forwarded to the backend. *)
Theorem update_password_prompt_raises {W} (os : OS W) (self : UserManager)
    (username : string) (e : Env W) (x : exn) :
  exists_in os self username (world e) = true →
  (getpass_getpass os (new_password_prompt username) (world e)).1 = Raise x
  ∨ (∃ p, (getpass_getpass os (new_password_prompt username) (world e)).1 = Ok p
          ∧ (getpass_getpass os confirm_prompt
               (getpass_getpass os (new_password_prompt username) (world e)).2).1
            = Raise x) →
  let '(r, e') := update_password os self username None e in
  r = Raise x ∧ Forall (λ c, is_mutation c = false) (new_calls e e').
Proof.
  intros Hex Hraise. rewrite update_password_prompt_eq by done. simpl.
  pose proof (exists_query_not_mutation self username) as Hq.
  destruct (getpass_getpass os (new_password_prompt username) (world e))
    as [r1 w1]. simpl in Hraise.
  destruct Hraise as [->|(p & -> & Hraise)].
  - split; [done|]. unfold new_calls; simpl.
    rewrite <- !app_assoc, drop_app_length. repeat constructor; done.
  - destruct (getpass_getpass os confirm_prompt w1) as [r2 w2].
    simpl in Hraise. subst r2.
    split; [done|]. unfold new_calls; simpl.
    rewrite <- !app_assoc, drop_app_length. repeat constructor; done.
Qed.

Lemma update_password_prompt_raises_witness :
  let '(r, e') := update_password Sim.os posix "bob" None (init_env (Sim.stock 0)) in
  r = Raise (OtherError "EOF when reading a line")
  ∧ Forall (λ c, is_mutation c = false) (new_calls (init_env (Sim.stock 0)) e').
Proof.
  apply (update_password_prompt_raises Sim.os posix "bob" (init_env (Sim.stock 0))
           (OtherError "EOF when reading a line")).
  - vm_compute. reflexivity.
  - left. vm_compute. reflexivity.
Defined.

(** ** [delete_user] *)

Lemma delete_user_returns {W} (os : OS W) (self : UserManager)
    (username : string) (remove_home : bool) (e : Env W) :
  ∃ b e', delete_user os self username remove_home e = (Ok b, e').
Proof.
  destruct (exists_in os self username (world e)) eqn:Hex.
  2:{ rewrite delete_user_missing by done. eauto. }
  destruct (String.eqb (system self) "win32") eqn:Hsys.
  - destruct (NetUserDel os username (world e)) as [r w1] eqn:Hdel.
    destruct (delete_user_windows_run os self username remove_home e r w1
                Hsys Hex Hdel) as (e' & -> & _). eauto.
  - destruct (subprocess_run os (userdel_cmd username remove_home) (world e))
      as [r w1] eqn:Hdel.
    destruct (delete_user_posix_run os self username remove_home e r w1
                Hsys Hex Hdel) as (e' & -> & _). eauto.
Qed.

(** X12. [delete_user] always returns a boolean: no exception of the backend
    leaves the method. *)
Theorem delete_user_never_raises {W} (os : OS W) (self : UserManager)
    (username : string) (remove_home : bool) (e : Env W) :
  ∃ b e', delete_user os self username remove_home e = (Ok b, e').
Proof. apply delete_user_returns. Qed.

(** X13. For a username that does not exist, [delete_user] returns [False]
    with the error record "User '<username>' does not exist"; it issues the
    look-up only and leaves the account store as it was. *)
Theorem delete_user_not_found {W} (os : OS W) (self : UserManager)
    (username : string) (remove_home : bool) (e : Env W) :
  exists_in os self username (world e) = false →
  ∃ e', delete_user os self username remove_home e = (Ok false, e')
        ∧ world e' = world e
        ∧ new_logs e e' = [(ERROR, "User '" +:+ username +:+ "' does not exist")]
        ∧ new_calls e e' = [exists_query self username]
        ∧ Forall (λ c, is_mutation c = false) (new_calls e e').
Proof.
  intros Hno. rewrite delete_user_missing by done.
  eexists; split; [reflexivity|]. unfold new_logs, new_calls; simpl.
  rewrite !drop_app_length. repeat split.
  constructor; [apply exists_query_not_mutation|constructor].
Qed.

Lemma delete_user_not_found_witness :
  ∃ e', delete_user Sim.os posix "carol" true (init_env (Sim.stock 0)) = (Ok false, e')
        ∧ world e' = Sim.stock 0
        ∧ new_logs (init_env (Sim.stock 0)) e'
          = [(ERROR, "User 'carol' does not exist")]
        ∧ new_calls (init_env (Sim.stock 0)) e' = [exists_query posix "carol"]
        ∧ Forall (λ c, is_mutation c = false) (new_calls (init_env (Sim.stock 0)) e').
Proof.
  apply (delete_user_not_found Sim.os posix "carol" true (init_env (Sim.stock 0))).
  vm_compute. reflexivity.
Defined.

(** X14. On POSIX, [delete_user] for an existing username runs
    [sudo userdel <username>], with [-r] before the username exactly when home
    removal is asked for, and returns [True] exactly when the command exits
    with status 0; a failure logs one error record with the captured [stderr]
    or, for another exception, its text. *)
Theorem delete_user_posix_result {W} (os : OS W) (username : string)
    (remove_home : bool) (e : Env W) :
  exists_in os posix username (world e) = true →
  let cmd := ["sudo"; "userdel"] ++ (if remove_home then ["-r"] else [])
             ++ [username] in
  let '(r, e') := delete_user os posix username remove_home e in
  r = Ok (is_Ok (subprocess_run os cmd (world e)).1)
  ∧ world e' = (subprocess_run os cmd (world e)).2
  ∧ new_calls e e' = [pwd_getpwnam_c username; subprocess_run_c cmd]
  ∧ new_logs e e' =
      [match (subprocess_run os cmd (world e)).1 with
       | Ok _ => (INFO, "Successfully deleted user '" +:+ username +:+ "'")
       | Raise (CalledProcessError _ stderr) =>
           (ERROR, "userdel command failed: " +:+ stderr)
       | Raise x =>
           (ERROR, "Failed to delete user '" +:+ username +:+ "': " +:+ exn_str x)
       end].
Proof.
  intros Hex cmd.
  assert (cmd = userdel_cmd username remove_home) as ->
    by (unfold cmd, userdel_cmd; by destruct remove_home).
  unfold delete_user, bind. rewrite user_exists_eq, Hex. unfold try_except. simpl.
  unfold _delete_user_linux, try_except, bind, command_call. simpl.
  destruct (subprocess_run os (userdel_cmd username remove_home) (world e))
    as [[[]|x] w1]; simpl; [|destruct x; simpl];
    unfold new_calls, new_logs; simpl;
    rewrite <- !app_assoc, !drop_app_length; auto.
Qed.

Lemma delete_user_posix_result_witness :
  let e := init_env (Sim.stock 0) in
  let cmd := ["sudo"; "userdel"; "-r"; "bob"] in
  let '(r, e') := delete_user Sim.os posix "bob" true e in
  r = Ok (is_Ok (Sim.run cmd (Sim.stock 0)).1)
  ∧ world e' = (Sim.run cmd (Sim.stock 0)).2
  ∧ new_calls e e' = [pwd_getpwnam_c "bob"; subprocess_run_c cmd]
  ∧ new_logs e e' =
      [match (Sim.run cmd (Sim.stock 0)).1 with
       | Ok _ => (INFO, "Successfully deleted user '" +:+ "bob" +:+ "'")
       | Raise (CalledProcessError _ stderr) =>
           (ERROR, "userdel command failed: " +:+ stderr)
       | Raise x =>
           (ERROR, "Failed to delete user '" +:+ "bob" +:+ "': " +:+ exn_str x)
       end].
Proof.
  apply (delete_user_posix_result Sim.os "bob" true (init_env (Sim.stock 0))).
  vm_compute. reflexivity.
Defined.

(** X15. Under the backend contract, when a first [delete_user] succeeds, a
    second [delete_user] of the same username returns [False] with the error
    record "User '<username>' does not exist", issues the look-up only and
    leaves the account store as it was. *)
Theorem delete_twice_not_found {W} (os : OS W) (self : UserManager)
    (username : string) (remove_home remove_home' : bool) (e e1 : Env W) :
  backend_contract os self →
  delete_user os self username remove_home e = (Ok true, e1) →
  ∃ e2, delete_user os self username remove_home' e1 = (Ok false, e2)
        ∧ world e2 = world e1
        ∧ new_logs e1 e2 = [(ERROR, "User '" +:+ username +:+ "' does not exist")]
        ∧ new_calls e1 e2 = [exists_query self username]
        ∧ Forall (λ c, is_mutation c = false) (new_calls e1 e2).
Proof.
  intros contract Hrun.
  pose proof (deleted_user_is_gone os self contract _ _ _ _ Hrun) as Hno.
  rewrite delete_user_missing by done.
  eexists; split; [reflexivity|]. unfold new_logs, new_calls; simpl.
  rewrite !drop_app_length. repeat split.
  constructor; [apply exists_query_not_mutation|constructor].
Qed.

Lemma delete_twice_not_found_witness :
  let e1 := (delete_user Sim.os posix "bob" true (init_env (Sim.stock 0))).2 in
  ∃ e2, delete_user Sim.os posix "bob" false e1 = (Ok false, e2)
        ∧ world e2 = world e1
        ∧ new_logs e1 e2 = [(ERROR, "User 'bob' does not exist")]
        ∧ new_calls e1 e2 = [exists_query posix "bob"]
        ∧ Forall (λ c, is_mutation c = false) (new_calls e1 e2).
Proof.
  apply (delete_twice_not_found Sim.os posix "bob" true false
           (init_env (Sim.stock 0)) _ (sim_contract posix)).
  vm_compute. reflexivity.
Defined.

(** X16. Under the backend contract, the password of an account that was
    removed cannot be set: after a successful [delete_user],
    [update_password] returns [False] without any call that changes the
    account store, and a new [create_user] of the username reaches the
    creation call again. *)
Theorem deleted_user_password_not_found {W} (os : OS W) (self : UserManager)
    (username : string) (remove_home : bool) (password : option string)
    (e e1 : Env W) :
  backend_contract os self →
  delete_user os self username remove_home e = (Ok true, e1) →
  (∃ e2, update_password os self username password e1 = (Ok false, e2)
         ∧ world e2 = world e1
         ∧ new_calls e1 e2 = [exists_query self username])
  ∧ (∀ shell home_dir create_home system_user,
       ∃ c, (new_calls e1 (create_user os self username None shell home_dir
                                       create_home system_user e1).2) !! 1%nat
            = Some c ∧ is_mutation c = true).
Proof.
  intros contract Hrun.
  pose proof (deleted_user_is_gone os self contract _ _ _ _ Hrun) as Hno.
  split.
  - rewrite update_password_missing by done.
    eexists; split; [reflexivity|]. unfold new_calls; simpl.
    by rewrite drop_app_length.
  - intros shell home_dir create_home system_user.
    destruct (String.eqb (system self) "win32") eqn:Hsys.
    + destruct (NetUserAdd os 1 (create_user_info username None) (world e1))
        as [r w1] eqn:Hadd.
      destruct (create_user_windows_run os self username None shell home_dir
                  create_home system_user e1 r w1 Hsys Hno Hadd)
        as (e' & -> & _ & Hc).
      simpl. rewrite (new_calls_app e1 e' _ Hc). eauto.
    + destruct (subprocess_run os
                  (useradd_cmd username shell home_dir create_home system_user)
                  (world e1)) as [[[]|x] w1] eqn:Hadd.
      * erewrite create_user_posix_no_password by eauto.
        unfold new_calls; simpl. rewrite <- !app_assoc, drop_app_length. eauto.
      * destruct (create_user_posix_useradd_fails os self username None shell
                    home_dir create_home system_user e1 x w1 Hsys Hno Hadd)
          as (e' & -> & _ & Hc).
        simpl. rewrite (new_calls_app e1 e' _ Hc). eauto.
Qed.

Lemma deleted_user_password_not_found_witness :
  let e1 := (delete_user Sim.os posix "bob" true (init_env (Sim.stock 0))).2 in
  (∃ e2, update_password Sim.os posix "bob" (Some "s3cr3t") e1 = (Ok false, e2)
         ∧ world e2 = world e1
         ∧ new_calls e1 e2 = [exists_query posix "bob"])
  ∧ (∀ shell home_dir create_home system_user,
       ∃ c, (new_calls e1 (create_user Sim.os posix "bob" None shell home_dir
                                       create_home system_user e1).2) !! 1%nat
            = Some c ∧ is_mutation c = true).
Proof.
  apply (deleted_user_password_not_found Sim.os posix "bob" true (Some "s3cr3t")
           (init_env (Sim.stock 0)) _ (sim_contract posix)).
  vm_compute. reflexivity.
Defined.

(** ** [list_users] *)

Section ListingMore.
Context {W : Type} (os : OS W).

Lemma list_users_windows_eq self pattern (e : Env W) :
  String.eqb (system self) "win32" = true →
  list_users os self pattern e
  = (Ok tt,
     add_log ERROR "Failed to list Windows users: name 'win32netcon' is not defined" e).
Proof. intros Hsys. unfold list_users, try_except. by rewrite Hsys. Qed.

Lemma _list_users_linux_raise self pattern (e : Env W) x :
  pwd_getpwall os (world e) = Raise x →
  _list_users_linux os self pattern e =
  (Ok tt, add_log ERROR ("Failed to list Linux users: " +:+ exn_str x)
            (add_call pwd_getpwall_c e)).
Proof.
  intros Hall. unfold _list_users_linux, try_except, bind, lookup_call.
  rewrite Hall. reflexivity.
Qed.

Lemma list_users_posix_eq self pattern (e : Env W) :
  String.eqb (system self) "win32" = false →
  list_users os self pattern e = _list_users_linux os self pattern e.
Proof.
  intros Hsys. unfold list_users, try_except. rewrite Hsys.
  destruct (pwd_getpwall os (world e)) as [entries|x] eqn:Hall.
  - by rewrite (_list_users_linux_eq os self pattern e entries Hall).
  - by rewrite (_list_users_linux_raise self pattern e x Hall).
Qed.

End ListingMore.

Lemma list_users_run {W} (os : OS W) (self : UserManager)
    (pattern : option string) (e : Env W) :
  ∃ e', list_users os self pattern e = (Ok tt, e')
        ∧ world e' = world e
        ∧ Forall (λ c, is_mutation c = false) (new_calls e e')
        ∧ new_calls e e'
          = if String.eqb (system self) "win32" then [] else [pwd_getpwall_c].
Proof.
  destruct (String.eqb (system self) "win32") eqn:Hsys.
  - rewrite list_users_windows_eq by done. eexists; split; [reflexivity|].
    unfold new_calls; simpl. rewrite drop_all. repeat split; constructor.
  - rewrite list_users_posix_eq by done.
    destruct (pwd_getpwall os (world e)) as [entries|x] eqn:Hall.
    + rewrite (_list_users_linux_eq os self pattern e entries Hall).
      eexists; split; [reflexivity|]. unfold new_calls; simpl.
      rewrite drop_app_length. repeat split; repeat constructor.
    + rewrite (_list_users_linux_raise os self pattern e x Hall).
      eexists; split; [reflexivity|]. unfold new_calls; simpl.
      rewrite drop_app_length. repeat split; repeat constructor.
Qed.

(** X18. [list_users] is read-only and never raises: on either platform it
    returns normally, leaves the account store as it was, and issues no call
    that changes it (on POSIX exactly one [pwd.getpwall()]). *)
Theorem list_users_read_only {W} (os : OS W) (self : UserManager)
    (pattern : option string) (e : Env W) :
  ∃ e', list_users os self pattern e = (Ok tt, e')
        ∧ world e' = world e
        ∧ Forall (λ c, is_mutation c = false) (new_calls e e')
        ∧ new_calls e e'
          = if String.eqb (system self) "win32" then [] else [pwd_getpwall_c].
Proof. apply list_users_run. Qed.

(** X19. On POSIX, when [pwd.getpwall()] raises, [list_users] returns
    normally with the account store as it was: the one call is the
    enumeration, and the one log record is the error
    "Failed to list Linux users: <text>" with the text of the exception. *)
Theorem list_users_posix_enumeration_error {W} (os : OS W)
    (pattern : option string) (e : Env W) (x : exn) :
  pwd_getpwall os (world e) = Raise x →
  ∃ e', list_users os posix pattern e = (Ok tt, e')
        ∧ world e' = world e
        ∧ new_calls e e' = [pwd_getpwall_c]
        ∧ new_logs e e' = [(ERROR, "Failed to list Linux users: " +:+ exn_str x)].
Proof.
  intros Hall. rewrite list_users_posix_eq by done.
  rewrite (_list_users_linux_raise os posix pattern e x Hall).
  eexists; split; [reflexivity|]. unfold new_calls, new_logs; simpl.
  by rewrite !drop_app_length.
Qed.

Lemma list_users_posix_enumeration_error_witness :
  let broken : OS Sim.world :=
    {| pwd_getpwnam := Sim.getpwnam;
       pwd_getpwall := λ _, Raise (OtherError "[Errno 5] Input/output error");
       subprocess_run := Sim.run;
       Popen_communicate := Sim.communicate;
       NetUserGetInfo := Sim.net_get_info;
       NetUserAdd := Sim.net_add;
       NetUserDel := Sim.net_del;
       NetUserSetInfo := Sim.net_set_info;
       getpass_getpass := Sim.ask |} in
  ∃ e', list_users broken posix (Some "adm") (init_env (Sim.stock 0)) = (Ok tt, e')
        ∧ world e' = Sim.stock 0
        ∧ new_calls (init_env (Sim.stock 0)) e' = [pwd_getpwall_c]
        ∧ new_logs (init_env (Sim.stock 0)) e'
          = [(ERROR, "Failed to list Linux users: "
                     +:+ exn_str (OtherError "[Errno 5] Input/output error"))].
Proof.
  intros broken.
  apply (list_users_posix_enumeration_error broken (Some "adm")
           (init_env (Sim.stock 0)) (OtherError "[Errno 5] Input/output error")).
  reflexivity.
Defined.

Lemma listed_rows_nil pattern entries :
  listed_rows pattern entries = [] ↔
  ∀ user, user ∈ entries →
    ¬ (matches pattern (pw_name user) = true
       ∧ (1000 ≤ pw_uid user ∨ pw_uid user = 0)).
Proof.
  split.
  - intros Hnil user Hin [Hm Hu].
    assert (to_row user ∈ listed_rows pattern entries) as Hrow
      by (apply elem_of_listed_rows; eauto).
    rewrite Hnil in Hrow. by apply elem_of_nil in Hrow.
  - intros Hnone. destruct (listed_rows pattern entries) as [|r rows] eqn:Hrows;
      [done|].
    assert (r ∈ listed_rows pattern entries) as Hr
      by (rewrite Hrows; apply list_elem_of_here).
    apply elem_of_listed_rows in Hr as (user & Hin & _ & Hm & Hu).
    destruct (Hnone user Hin). done.
Qed.

(** X20. On POSIX the listing prints the single line "No users found"
    exactly when no entry both matches the filter and has a numeric
    identifier that is at least 1000 or 0; otherwise it prints the header, the
    rule and one line per such entry. *)
Theorem list_users_no_users_found {W} (os : OS W) (pattern : option string)
    (e : Env W) (entries : list struct_passwd) :
  pwd_getpwall os (world e) = Ok entries →
  let lines := new_lines e (list_users os posix pattern e).2 in
  (lines = ["No users found"] ↔
   ∀ user, user ∈ entries →
     ¬ (matches pattern (pw_name user) = true
        ∧ (1000 ≤ pw_uid user ∨ pw_uid user = 0)))
  ∧ (lines ≠ ["No users found"] →
     length lines
     = (2 + length (List.filter (λ user, matches pattern (pw_name user)
                                         && listed_uid (pw_uid user)) entries))%nat).
Proof.
  intros Hall. rewrite list_users_posix_eq by done.
  rewrite (_list_users_linux_eq os posix pattern e entries Hall).
  unfold new_lines; simpl. rewrite drop_app_length.
  rewrite <- listed_rows_nil.
  assert (length (listed_rows pattern entries)
          = length (List.filter (λ user, matches pattern (pw_name user)
                                         && listed_uid (pw_uid user)) entries)) as Hlen.
  { unfold listed_rows, sorted.
    rewrite merge_sort_Permutation, linux_collect_filter. simpl.
    by rewrite length_fmap. }
  destruct (listed_rows pattern entries) as [|r rows]; simpl in *.
  - split; [done|]. intros Hne. done.
  - split; [split; discriminate|]. intros _. rewrite length_fmap. lia.
Qed.

Lemma list_users_no_users_found_witness :
  let e := init_env (Sim.stock 0) in
  let entries := (λ na, Sim.entry na.1 na.2) <$> map_to_list (Sim.accounts (Sim.stock 0)) in
  let lines := new_lines e (list_users Sim.os posix (Some "zzz") e).2 in
  (lines = ["No users found"] ↔
   ∀ user, user ∈ entries →
     ¬ (matches (Some "zzz") (pw_name user) = true
        ∧ (1000 ≤ pw_uid user ∨ pw_uid user = 0)))
  ∧ (lines ≠ ["No users found"] →
     length lines
     = (2 + length (List.filter (λ user, matches (Some "zzz") (pw_name user)
                                         && listed_uid (pw_uid user)) entries))%nat).
Proof.
  apply (list_users_no_users_found Sim.os (Some "zzz") (init_env (Sim.stock 0))).
  reflexivity.
Defined.

Lemma lower_ascii_idemp a : lower_ascii (lower_ascii a) = lower_ascii a.
Proof.
  unfold lower_ascii.
  destruct ((65 <=? N_of_ascii a) && (N_of_ascii a <=? 90))%N eqn:Hup; [|by rewrite Hup].
  apply andb_true_iff in Hup as [H1%N.leb_le H2%N.leb_le].
  rewrite N_ascii_embedding by lia.
  replace ((65 <=? N_of_ascii a + 32) && (N_of_ascii a + 32 <=? 90))%N with false;
    [done|].
  symmetry. apply andb_false_iff. right. apply N.leb_gt. lia.
Qed.

Lemma lower_idemp s : lower (lower s) = lower s.
Proof. induction s as [|a s IH]; simpl; [done|]. by rewrite lower_ascii_idemp, IH. Qed.

Lemma matches_lower p username :
  matches (Some (lower p)) username = matches (Some p) username
  ∧ matches (Some p) (lower username) = matches (Some p) username.
Proof.
  unfold matches. split.
  - destruct p as [|a p]; [done|]. simpl. by rewrite lower_ascii_idemp, lower_idemp.
  - by rewrite lower_idemp.
Qed.

Lemma linux_collect_ext pattern pattern' entries users :
  (∀ username, matches pattern username = matches pattern' username) →
  linux_collect pattern entries users = linux_collect pattern' entries users.
Proof.
  intros Hm. rewrite !linux_collect_filter. do 2 f_equal.
  apply filter_ext. intros user. by rewrite Hm.
Qed.

(** X21. The filter of the listing ignores case on both sides: a pattern and
    its lower-case form give the same listing, and whether a username matches
    depends on its lower-case form only.  No pattern and the empty pattern
    give the same listing too. *)
Theorem list_users_pattern_case_insensitive {W} (os : OS W) (self : UserManager)
    (p : string) (e : Env W) :
  _list_users_linux os self (Some (lower p)) e = _list_users_linux os self (Some p) e
  ∧ _list_users_linux os self (Some "") e = _list_users_linux os self None e
  ∧ (∀ username username',
       lower username = lower username' →
       matches (Some p) username = matches (Some p) username').
Proof.
  assert (Hext : ∀ pattern pattern',
            (∀ username, matches pattern username = matches pattern' username) →
            _list_users_linux os self pattern e = _list_users_linux os self pattern' e).
  { intros pattern pattern' Hm.
    destruct (pwd_getpwall os (world e)) as [entries|x] eqn:Hall.
    - rewrite !(_list_users_linux_eq os self _ e entries Hall).
      unfold listed_rows. by rewrite (linux_collect_ext pattern pattern').
    - by rewrite !(_list_users_linux_raise os self _ e x Hall). }
  split; [|split].
  - apply Hext. intros username. apply matches_lower.
  - by apply Hext.
  - intros u u' Hl.
    rewrite <- (proj2 (matches_lower p u)), <- (proj2 (matches_lower p u')).
    by rewrite Hl.
Qed.






(** X23. Every listed row comes from an entry of [pwd.getpwall()], with the
    username and the numeric identifier of that entry, and its description is
    the GECOS field of the entry or, when that is empty, "No description": a
    listed description is never empty. *)
Theorem listed_rows_description (pattern : option string)
    (entries : list struct_passwd) (r : row) :
  r ∈ listed_rows pattern entries →
  ∃ user, user ∈ entries
          ∧ username_of r = pw_name user
          ∧ uid_of r = pw_uid user
          ∧ r.2 = (if String.eqb (pw_gecos user) "" then "No description"
                   else pw_gecos user)
          ∧ r.2 ≠ "".
Proof.
  intros Hr. apply elem_of_listed_rows in Hr as (user & Hin & -> & _).
  exists user. unfold to_row, username_of, uid_of; simpl.
  destruct (pw_gecos user); simpl; repeat split; auto; discriminate.
Qed.

Lemma listed_rows_description_witness :
  ∃ user, user ∈ ((λ na, Sim.entry na.1 na.2)
                    <$> map_to_list (Sim.accounts (Sim.stock 0)))
          ∧ username_of ("bob", 1001, "No description") = pw_name user
          ∧ uid_of ("bob", 1001, "No description") = pw_uid user
          ∧ ("bob", 1001, "No description").2
            = (if String.eqb (pw_gecos user) "" then "No description"
               else pw_gecos user)
          ∧ ("bob", 1001, "No description").2 ≠ "".
Proof.
  apply (listed_rows_description None
           ((λ na, Sim.entry na.1 na.2) <$> map_to_list (Sim.accounts (Sim.stock 0)))
           ("bob", 1001, "No description")).
  vm_compute. set_solver.
Defined.

(** X24. The rows are printed in ascending order of username, rows with the
    same username in ascending order of numeric identifier, and rows that
    agree on both in ascending order of description; this arrangement of the
    collected rows is the only one in that order. *)
Theorem listed_rows_lexicographic (pattern : option string)
    (entries : list struct_passwd) :
  StronglySorted
    (λ r1 r2, (username_of r1 ≤ username_of r2)%string
              ∧ (username_of r1 = username_of r2 →
                 uid_of r1 ≤ uid_of r2
                 ∧ (uid_of r1 = uid_of r2 → (r1.2 ≤ r2.2)%string)))
    (listed_rows pattern entries)
  ∧ (∀ rows, rows ≡ₚ listed_rows pattern entries → Sorted row_le rows →
             rows = listed_rows pattern entries).
Proof.
  split.
  - assert (StronglySorted row_le (listed_rows pattern entries)) as H
      by (apply StronglySorted_merge_sort; apply _).
    induction H as [|r l Hl IH Hall]; constructor; [done|].
    eapply Forall_impl; [exact Hall|]. intros r' Hr. by apply row_le_spec in Hr.
  - intros rows Hp Hs. unfold listed_rows. apply sorted_unique; [|done].
    rewrite Hp. unfold listed_rows, sorted. by rewrite merge_sort_Permutation.
Qed.

(** X25. The listing does not depend on the order in which [pwd.getpwall()]
    enumerates the entries: two enumerations of the same entries print the
    same lines. *)
Theorem listing_independent_of_enumeration_order (pattern : option string)
    (entries entries' : list struct_passwd) :
  entries ≡ₚ entries' →
  listed_rows pattern entries = listed_rows pattern entries'
  ∧ render (listed_rows pattern entries) = render (listed_rows pattern entries').
Proof.
  intros Hp.
  assert (listed_rows pattern entries = listed_rows pattern entries') as ->; [|done].
  unfold listed_rows at 2. apply sorted_unique.
  - unfold listed_rows, sorted.
    rewrite merge_sort_Permutation, !linux_collect_filter. simpl.
    apply fmap_Permutation.
    induction Hp as [|u l l' Hp IH|u v l|l1 l2 l3 H1 IH1 H2 IH2]; simpl.
    + done.
    + destruct (_ && _); [by constructor|done].
    + destruct (_ && _), (_ && _); try done. apply perm_swap.
    + by etrans.
  - apply Sorted_merge_sort, _.
Qed.

Lemma listing_independent_of_enumeration_order_witness :
  let root := Sim.entry "root" (Sim.system_account 0 "root" "/root") in
  let bob := Sim.entry "bob" (Sim.system_account 1001 "" "/home/bob") in
  listed_rows None [root; bob] = listed_rows None [bob; root]
  ∧ render (listed_rows None [root; bob]) = render (listed_rows None [bob; root]).
Proof.
  intros root bob.
  apply (listing_independent_of_enumeration_order None [root; bob] [bob; root]).
  apply perm_swap.
Defined.

(** ** [main] *)

Section MainRuns.
Context {W : Type} (os : OS W).

Lemma main_create_eq self help username password shell home_dir no_create_home
    system (e : Env W) b e' :
  create_user os self username password shell home_dir (negb no_create_home)
              system e = (Ok b, e') →
  main os self help
       (CreateCommand username password shell home_dir no_create_home system) e
  = (Ok (if b then 0 else 1), e').
Proof.
  intros Hrun. unfold main, try_except, bind. rewrite Hrun. by destruct b.
Qed.

Lemma main_delete_eq self help username remove_home (e : Env W) b e' :
  delete_user os self username remove_home e = (Ok b, e') →
  main os self help (DeleteCommand username remove_home) e
  = (Ok (if b then 0 else 1), e').
Proof.
  intros Hrun. unfold main, try_except, bind. rewrite Hrun. by destruct b.
Qed.

Lemma main_password_eq self help username password (e : Env W) :
  main os self help (PasswordCommand username password) e
  = match update_password os self username password e with
    | (Ok b, e') => (Ok (if b then 0 else 1), e')
    | (Raise x, e') => (Ok 1, add_log ERROR ("Unexpected error: " +:+ exn_str x) e')
    end.
Proof.
  unfold main, try_except, bind.
  destruct (update_password os self username password e) as [[[]|x] e'];
    reflexivity.
Qed.

Lemma main_list_eq self help pattern (e : Env W) :
  main os self help (ListCommand pattern) e
  = (Ok 0, (list_users os self pattern e).2).
Proof.
  destruct (list_users_run os self pattern e) as (e' & Hrun & _).
  unfold main, try_except, bind. by rewrite Hrun.
Qed.

End MainRuns.

(** X26. For the [create] and [delete] commands the exit status of [main]
    is 0 exactly when the method returned [True] and 1 when it returned
    [False]; [main] adds no call, log record or line to those of the method,
    and [create] calls [create_user] with [create_home] the negation of
    [--no-create-home]. *)
Theorem main_create_delete_exit_status {W} (os : OS W) (self : UserManager)
    (help username : string) (password : option string) (shell : string)
    (home_dir : option string) (no_create_home system remove_home : bool)
    (e : Env W) :
  (∃ b e', create_user os self username password shell home_dir
                       (negb no_create_home) system e = (Ok b, e')
           ∧ main os self help
                  (CreateCommand username password shell home_dir no_create_home
                                 system) e
             = (Ok (if b then 0 else 1), e'))
  ∧ (∃ b e', delete_user os self username remove_home e = (Ok b, e')
             ∧ main os self help (DeleteCommand username remove_home) e
               = (Ok (if b then 0 else 1), e')).
Proof.
  split.
  - destruct (create_user_returns os self username password shell home_dir
                (negb no_create_home) system e) as (b & e' & Hrun).
    exists b, e'. split; [done|]. by apply main_create_eq.
  - destruct (delete_user_returns os self username remove_home e)
      as (b & e' & Hrun).
    exists b, e'. split; [done|]. by apply main_delete_eq.
Qed.

(** X27. The [list] command always exits with status 0, also when the
    listing failed (an enumeration error on POSIX, the unbound name on
    Windows): [main] does not look at what [list_users] did. *)
Theorem main_list_always_exits_0 {W} (os : OS W) (self : UserManager)
    (help : string) (pattern : option string) (e : Env W) :
  main os self help (ListCommand pattern) e
  = (Ok 0, (list_users os self pattern e).2)
  ∧ world (list_users os self pattern e).2 = world e.
Proof.
  split; [apply main_list_eq|].
  by destruct (list_users_run os self pattern e) as (e' & -> & Hw & _).
Qed.



(** X29. [main] never ends with an exception: for every command line it
    returns an exit status, and the status is 0 or 1.  Without a sub-command
    it prints the help text, touches nothing else, and the status is 0. *)
Theorem main_always_exits_0_or_1 {W} (os : OS W) (self : UserManager)
    (help : string) (args : parsed_args) (e : Env W) :
  (∃ status e', main os self help args e = (Ok status, e')
                ∧ (status = 0 ∨ status = 1))
  ∧ main os self help NoCommand e = (Ok 0, add_line help e).
Proof.
  split; [|reflexivity].
  destruct args as [|u p sh hd nch sy|u rh|u p|pat].
  - eexists _, _. split; [reflexivity|]. auto.
  - destruct (create_user_returns os self u p sh hd (negb nch) sy e)
      as (b & e' & Hrun).
    rewrite (main_create_eq os self help u p sh hd nch sy e b e' Hrun).
    eexists _, _. split; [reflexivity|]. destruct b; auto.
  - destruct (delete_user_returns os self u rh e) as (b & e' & Hrun).
    rewrite (main_delete_eq os self help u rh e b e' Hrun).
    eexists _, _. split; [reflexivity|]. destruct b; auto.
  - rewrite main_password_eq.
    destruct (update_password os self u p e) as [[b|x] e'].
    + eexists _, _. split; [reflexivity|]. destruct b; auto.
    + eexists _, _. split; [reflexivity|]. auto.
  - rewrite main_list_eq. eexists _, _. split; [reflexivity|]. auto.
Qed.
